(** * Tiny RTC board: RTC RAM / EEPROM accessors of [main.c]

    A shallow embedding of [src/main.c] (DS1307 real-time clock and AT24C32
    EEPROM behind an i2c wrapper) together with a model of the two-wire bus
    and of the register-addressed devices sitting on it.

    Layout of the development:
    - [Types]     fixed-width integers, C strings and buffers;
    - [Bus]       register-addressed devices, bus transactions and their log;
    - [I2c]       the i2c wrapper ([i2c/i2c.h]), modelled from the specification;
    - [Firmware]  the functions of [main.c];
    - the properties of the firmware. *)

From Stdlib Require Import ZArith List String Ascii Lia.
From stdpp Require Import gmap list.

Local Open Scope Z_scope.

(* ===================================================================== *)
(** ** Fixed-width integers, C strings, buffers *)
(* ===================================================================== *)

Module Types.

(** Conversion to [uint8_t] / [uint16_t]: reduction modulo 2^8 / 2^16. *)
Definition uint8 (z : Z) : Z := z mod 256.
Definition uint16 (z : Z) : Z := z mod 65536.

(** A byte buffer ([uint8_t *] together with the storage it points at). *)
Abbreviation buffer := (list Z).

(** A string literal as the [char] array it initialises: the characters
    followed by the terminating NUL. *)
Definition c_string (s : string) : buffer :=
  map (fun c => Z.of_N (N_of_ascii c)) (list_ascii_of_string s) ++ [0].

(** [strlen]: number of bytes before the first NUL. *)
Fixpoint strlen (s : buffer) : Z :=
  match s with
  | [] => 0
  | c :: r => if c =? 0 then 0 else 1 + strlen r
  end.

(** [memset(buf, c, n)] on a buffer of at least [n] bytes. *)
Definition memset (buf : buffer) (c : Z) (n : Z) : buffer :=
  replicate (Z.to_nat n) (uint8 c) ++ drop (Z.to_nat n) buf.

(** An automatic array of [n] bytes.  Its initial contents are
    indeterminate in C: byte [i] holds whatever [junk i] is, and [junk] is
    an argument of every function that declares such an array. *)
Definition new_array (n : Z) (junk : nat -> Z) : buffer :=
  map (fun i => uint8 (junk i)) (seq 0 (Z.to_nat n)).

End Types.
Import Types.

(* ===================================================================== *)
(** ** The two-wire bus and the devices on it *)
(* ===================================================================== *)

Module Bus.

(** The environment of the firmware: a register-addressed device of the
    "write pointer, then stream" kind.  [dev_width] register-address bytes
    open every write transaction (most significant first) and load the
    internal pointer; the bytes that follow are stored at the pointer,
    which then advances inside the current write page of [dev_page] bytes
    and rolls over to the start of that page at its end.  A read
    transaction returns bytes from the pointer on, advancing through the
    whole array of [dev_size] bytes.  The DS1307 is one 64-byte page; the
    AT24C32 is 4096 bytes in write pages (the page handling that [main.c]
    leaves as a TODO). *)
Record device := Device {
  dev_width : nat;
  dev_size  : Z;
  dev_page  : Z;
  dev_mem   : gmap Z Z;
  dev_ptr   : Z
}.

(** Contents of a cell (a cell never written reads as the default of
    [Z] in a total lookup, which is [1]). *)
Definition dev_peek (d : device) (a : Z) : Z := dev_mem d !!! a.

Definition set_ptr (d : device) (p : Z) : device :=
  Device (dev_width d) (dev_size d) (dev_page d) (dev_mem d) p.

Definition poke (d : device) (b : Z) : device :=
  Device (dev_width d) (dev_size d) (dev_page d)
         (<[dev_ptr d := b]> (dev_mem d)) (dev_ptr d).

(** Pointer increment during a write: stays inside the page. *)
Definition next_in_page (page p : Z) : Z :=
  page * (p / page) + (p + 1) mod page.

(** Pointer increment during a read: runs through the whole array. *)
Definition next_in_array (size p : Z) : Z := (p + 1) mod size.

Fixpoint dev_store (d : device) (bytes : list Z) : device :=
  match bytes with
  | [] => d
  | b :: bs =>
      dev_store (set_ptr (poke d b) (next_in_page (dev_page d) (dev_ptr d))) bs
  end.

Fixpoint dev_load (d : device) (n : nat) : list Z * device :=
  match n with
  | O => ([], d)
  | S n' =>
      let b := dev_peek d (dev_ptr d) in
      let '(bs, d') :=
        dev_load (set_ptr d (next_in_array (dev_size d) (dev_ptr d))) n' in
      (b :: bs, d')
  end.

(** Big-endian value of the register-address bytes. *)
Definition decode_be (bs : list Z) : Z :=
  fold_left (fun acc b => acc * 256 + b) bs 0.

(** The pointer that the register-address bytes [a] select. *)
Definition reg_ptr (d : device) (a : list Z) : Z :=
  decode_be a mod dev_size d.

(** A write transaction as the device sees it.  A payload shorter than
    the register address leaves the device as it was. *)
Definition dev_write_txn (d : device) (payload : list Z) : device :=
  if (length payload <? dev_width d)%nat then d
  else dev_store
         (set_ptr d (reg_ptr d (take (dev_width d) payload)))
         (drop (dev_width d) payload).

Definition dev_read_txn (d : device) (len : Z) : list Z * device :=
  dev_load d (Z.to_nat len).

(** One call of the bus transaction primitive. *)
Inductive txn :=
| TxWrite (addr : Z) (payload : list Z)
| TxRead (addr : Z) (len : Z).

(** The bus: the devices by 7-bit bus address, and the transactions
    issued so far (oldest first). *)
Record bus := MkBus {
  devices : gmap Z device;
  log     : list txn
}.

(** [write(device_addr, bytes) -> ok | error]: an address nobody answers
    to is not acknowledged. *)
Definition bus_write (addr : Z) (payload : list Z) (st : bus) : bool * bus :=
  let lg := log st ++ [TxWrite addr payload] in
  match devices st !! addr with
  | Some d =>
      (true, MkBus (<[addr := dev_write_txn d payload]> (devices st)) lg)
  | None => (false, MkBus (devices st) lg)
  end.

(** [read(device_addr, length) -> bytes | error]. *)
Definition bus_read (addr : Z) (len : Z) (st : bus) : option (list Z) * bus :=
  let lg := log st ++ [TxRead addr len] in
  match devices st !! addr with
  | Some d =>
      let '(bs, d') := dev_read_txn d len in
      (Some bs, MkBus (<[addr := d']> (devices st)) lg)
  | None => (None, MkBus (devices st) lg)
  end.

(** Transactions issued by a computation started in [st] and ended in [st']. *)
Definition issued (st st' : bus) : list txn :=
  drop (length (log st)) (log st').

(** What stays fixed in a device: register-address width and geometry. *)
Definition dev_shape (d : device) : nat * Z * Z :=
  (dev_width d, dev_size d, dev_page d).

(** The DS1307: one register-address byte, 64 registers (time-keeping
    registers, then the 56 bytes of RAM from 0x08), no write pages. *)
Definition is_ds1307 (d : device) : Prop :=
  dev_shape d = (1%nat, 64, 64).

(** The AT24C32: two register-address bytes, 4096 cells in write pages. *)
Definition is_at24c32 (d : device) : Prop :=
  dev_width d = 2%nat /\ dev_size d = 4096 /\ 0 < dev_page d.

(** A transfer of [len] bytes from [reg] on that ends inside the write
    page it starts in. *)
Definition in_one_page (d : device) (reg len : Z) : Prop :=
  reg mod dev_page d + len <= dev_page d.

(** The transactions of a trace addressed to [a]. *)
Definition txn_addr (t : txn) : Z :=
  match t with TxWrite a _ => a | TxRead a _ => a end.

Definition traffic (a : Z) (tr : list txn) : list txn :=
  filter (fun t => txn_addr t = a) tr.

(** Number of bytes a transaction moves: the whole payload of a write
    (register address included), the length asked of a read. *)
Definition txn_bytes (t : txn) : Z :=
  match t with
  | TxWrite _ payload => Z.of_nat (length payload)
  | TxRead _ len => len
  end.

(** The [n] cells of a memory from address [p] on. *)
Fixpoint cells (m : gmap Z Z) (p : Z) (n : nat) : list Z :=
  match n with
  | O => []
  | S n' => m !!! p :: cells m (p + 1) n'
  end.

End Bus.
Import Bus.

(* ===================================================================== *)
(** ** Computations on the bus *)
(* ===================================================================== *)

(** Firmware code runs to completion on one control flow and its only
    state outside its own locals is the bus: a state monad over [bus]. *)
Definition io (A : Type) : Type := bus -> A * bus.

#[export] Instance io_ret : MRet io := fun A a st => (a, st).
#[export] Instance io_bind : MBind io :=
  fun A B k m st => let '(a, st') := m st in k a st'.

Ltac io_unfold := unfold mbind, mret, io_bind, io_ret.

(** Board configuration that [main.c] takes from headers outside [src/]:
    the two 7-bit bus addresses ([DS1307], [AT24C32]) and the [int] the i2c
    wrapper hands back for a successful ([true]) or failed ([false])
    transfer. *)
Class Board := {
  DS1307  : Z;
  AT24C32 : Z;
  i2c_ret : bool -> Z
}.

(* ===================================================================== *)
(** ** The i2c wrapper *)
(* ===================================================================== *)

Module I2c.
Section I2c.
Context `{Board}.

(** Register address on the wire: one byte, or two bytes most
    significant first. *)
Definition enc8 (reg : Z) : list Z := [uint8 reg].
Definition enc16 (reg : Z) : list Z := [uint16 reg / 256; uint16 reg mod 256].

(** What a block read leaves in the caller's buffer and returns. *)
Definition rd_result (ok : bool) (r : option (list Z)) (buf : buffer) (len : Z)
  : Z * buffer :=
  match r with
  | Some bs => (i2c_ret ok, bs ++ drop (Z.to_nat len) buf)
  | None => (i2c_ret false, buf)
  end.

(** Modelled from the spec: the transfer routines of [i2c/i2c.c] are
    missing.  One mechanism serves both devices, the register-address
    encoding [enc] being the only difference.
    Block write: a single bus write transaction whose payload is the
    encoded register address followed immediately by [len] payload bytes.
    The length bound is enforced by the device accessors of [main.c], not
    here: [rtc_init] passes the full capacity through this routine. *)
Definition wr_blk (enc : Z -> list Z) (dev reg : Z) (buf : buffer) (len : Z)
  : io Z :=
  ok ← bus_write dev (enc reg ++ take (Z.to_nat len) buf);
  mret (i2c_ret ok).

(** Modelled from the spec: block read of the missing [i2c/i2c.c]: a bus
    write transaction carrying only the encoded register address (it sets
    the device's internal pointer), immediately followed by a bus read
    transaction of [len] bytes into [buf]. *)
Definition rd_blk (enc : Z -> list Z) (dev reg : Z) (buf : buffer) (len : Z)
  : io (Z * buffer) :=
  ok ← bus_write dev (enc reg);
  r ← bus_read dev len;
  mret (rd_result ok r buf len).

(** Modelled from the spec: [i2c_wr_addr_blk] of [i2c/i2c.h], the block
    write with an 8-bit register address. *)
Definition i2c_wr_addr_blk : Z -> Z -> buffer -> Z -> io Z := wr_blk enc8.

(** Modelled from the spec: [i2c_wr_addr16_blk] of [i2c/i2c.h], the block
    write with a 16-bit register address. *)
Definition i2c_wr_addr16_blk : Z -> Z -> buffer -> Z -> io Z := wr_blk enc16.

(** Modelled from the spec: [i2c_rd_addr_blk] of [i2c/i2c.h], the block
    read with an 8-bit register address. *)
Definition i2c_rd_addr_blk : Z -> Z -> buffer -> Z -> io (Z * buffer) :=
  rd_blk enc8.

(** Modelled from the spec: [i2c_rd_addr16_blk] of [i2c/i2c.h], the block
    read with a 16-bit register address. *)
Definition i2c_rd_addr16_blk : Z -> Z -> buffer -> Z -> io (Z * buffer) :=
  rd_blk enc16.

(** Modelled from the spec: [i2c_wr_addr_byte] of [i2c/i2c.h], the one-byte
    form of the block write, used for control registers. *)
Definition i2c_wr_addr_byte (dev reg value : Z) : io Z :=
  wr_blk enc8 dev reg [uint8 value] 1.

End I2c.
End I2c.
Import I2c.

(* ===================================================================== *)
(** ** main.c *)
(* ===================================================================== *)

Module Firmware.
Section Firmware.
Context `{Board}.

(** DS1307 RTC register for start/stop time counter *)
Definition RTC_REG_START_TIME : Z := uint8 0x00.
(** DS1307 RTC register address pointing at the internal RAM-buffer *)
Definition RTC_REG_RAM_BUF_START : Z := uint8 0x08.
(** Memory block sizes *)
Definition RTC_RAM_SIZE : Z := uint8 56.
Definition EEPROM_SIZE : Z := uint16 4096.

(** RTC time variable struct *)
Record rtc_time_var := {
  sec_10 : Z;
  sec_1  : Z;
  min_10 : Z;
  min_1  : Z
}.

(** Dummy debug strings *)
Definition Dummy_EEPROM : buffer := c_string "EEPROM_Dummy_data".
Definition Dummy_RTC_RAM : buffer := c_string "RTC_RAM_Dummy_data".

(** [rtc_reg0] is what the local array [rtc_reg] holds on entry. *)
Definition rtc_init (rtc_reg0 : nat -> Z) : io unit :=
  let rtc_reg := new_array RTC_RAM_SIZE rtc_reg0 in
  (* Clear the RTC RAM buffer *)
  let rtc_reg := memset rtc_reg 0 RTC_RAM_SIZE in
  _ ← i2c_wr_addr_blk DS1307 RTC_REG_RAM_BUF_START rtc_reg RTC_RAM_SIZE;
  (* Start the RTC clock counter *)
  _ ← i2c_wr_addr_byte DS1307 RTC_REG_START_TIME 0;
  mret tt.

(** The assignments that close [rtc_get_time_var], on the two bytes read. *)
Definition decode_time (sec min : Z) : rtc_time_var :=
  {| sec_1  := uint8 (Z.land sec 0x0F);
     sec_10 := uint8 (Z.shiftr (Z.land sec 0x70) 4);
     min_1  := uint8 (Z.land min 0x0F);
     min_10 := uint8 (Z.shiftr (Z.land min 0x70) 4) |}.

(** [rtc_dat] is the (uninitialised) local array of two bytes; it is an
    argument because it is read whether or not the bus read filled it. *)
Definition rtc_get_time_var (rtc_dat : buffer) : io rtc_time_var :=
  '(_, rtc_dat) ← i2c_rd_addr_blk DS1307 RTC_REG_START_TIME rtc_dat 2;
  let sec := nth 0 rtc_dat 0 in
  let min := nth 1 rtc_dat 0 in
  mret (decode_time sec min).

Definition rtc_get_ram_buf (buf : buffer) (len : Z) : io (Z * buffer) :=
  let len := uint8 len in
  if len >=? RTC_RAM_SIZE then mret (-1, buf)
  else i2c_rd_addr_blk DS1307 RTC_REG_RAM_BUF_START buf len.

Definition rtc_set_ram_buf (buf : buffer) (len : Z) : io Z :=
  let len := uint8 len in
  if len >=? RTC_RAM_SIZE then mret (-1)
  else i2c_wr_addr_blk DS1307 RTC_REG_RAM_BUF_START buf len.

Definition eeprom_get_data (reg_idx : Z) (buf : buffer) (len : Z)
  : io (Z * buffer) :=
  let reg_idx := uint16 reg_idx in
  let len := uint16 len in
  if len >=? EEPROM_SIZE then mret (-1, buf)
  else (* TODO: add page handling *)
    i2c_rd_addr16_blk AT24C32 reg_idx buf len.

(** [len] is a [uint8_t] here, against [uint16_t] in [eeprom_get_data]. *)
Definition eeprom_set_data (reg_idx : Z) (buf : buffer) (len : Z) : io Z :=
  let reg_idx := uint16 reg_idx in
  let len := uint8 len in
  if len >=? EEPROM_SIZE then mret (-1)
  else (* TODO: add page handling *)
    i2c_wr_addr16_blk AT24C32 reg_idx buf len.

(** [main] up to its endless loop, bus traffic only (GPIO, UART set-up and
    the delays are left out).  The result is the contents of [i2c_buf] at
    each of the two [printf] calls that show a read result.  [i2c_buf0] is
    what the local array [i2c_buf] holds on entry, [rtc_reg0] what the
    array of [rtc_init] holds. *)
Definition main_setup (rtc_reg0 i2c_buf0 : nat -> Z) : io (buffer * buffer) :=
  let i2c_buf := new_array 32 i2c_buf0 in
  _ ← rtc_init rtc_reg0;
  (* Write some dummy data to the RTC RAM & the EEPROM *)
  _ ← rtc_set_ram_buf Dummy_RTC_RAM (strlen Dummy_RTC_RAM);
  _ ← eeprom_set_data 0x0000 Dummy_EEPROM (strlen Dummy_EEPROM);
  (* Read the Dummy data from RTC RAM & the EEPROM and print it *)
  let i2c_buf := memset i2c_buf 0 32 in
  '(_, i2c_buf) ← rtc_get_ram_buf i2c_buf (strlen Dummy_RTC_RAM);
  let rtc_ram_read_result := i2c_buf in
  let i2c_buf := memset i2c_buf 0 32 in
  '(_, i2c_buf) ← eeprom_get_data 0x0000 i2c_buf (strlen Dummy_EEPROM);
  let eeprom_read_result := i2c_buf in
  mret (rtc_ram_read_result, eeprom_read_result).

(** The endless loop of [main], cut after one turn per element of
    [rtc_dats]: each element is what the local array [rtc_dat] of
    [rtc_get_time_var] happens to hold at that call.  The delay, the LED
    and the text of [printf] are left out; the result is the digits handed
    to [printf], turn by turn. *)
Fixpoint main_loop (rtc_dats : list buffer) : io (list rtc_time_var) :=
  match rtc_dats with
  | [] => mret []
  | rtc_dat :: rest =>
      rtc ← rtc_get_time_var rtc_dat;
      printed ← main_loop rest;
      mret (rtc :: printed)
  end.

End Firmware.
End Firmware.
Import Firmware.

(** The Tiny RTC board as wired: DS1307 at 0x68, AT24C32 at 0x50, and a
    wrapper answering 0 for success and 1 for failure. *)
Definition tiny_rtc : Board :=
  {| DS1307 := 0x68; AT24C32 := 0x50; i2c_ret := fun ok => if ok then 0 else 1 |}.

(** The two devices with no cell written yet, and the board they sit on
    with an empty log. *)
Definition ds1307 : device := Device 1 64 64 ∅ 0.
Definition at24c32 : device := Device 2 4096 32 ∅ 0.
Definition board0 : bus :=
  MkBus (<[0x68 := ds1307]> (<[0x50 := at24c32]> ∅)) [].

(** Some contents for arrays that are not initialised: no byte is zero. *)
Definition stack_junk : nat -> Z := fun i => 0xA5 + Z.of_nat i mod 16.

(* ===================================================================== *)
(** ** Devices: what a write stores and what a read returns *)
(* ===================================================================== *)

Section DeviceFacts.

Lemma next_in_page_succ page p :
  0 < page -> p mod page + 1 < page -> next_in_page page p = p + 1.
Proof.
  intros Hpg Hlt. unfold next_in_page.
  pose proof (Z.mod_pos_bound p page Hpg) as Hb.
  assert (Hm : (p + 1) mod page = p mod page + 1).
  { rewrite Z.add_mod by lia.
    rewrite (Z.mod_small 1 page) by lia.
    apply Z.mod_small. lia. }
  rewrite Hm. pose proof (Z.div_mod p page ltac:(lia)). lia.
Qed.

Lemma mod_succ_in_page page p :
  0 < page -> p mod page + 1 < page -> (p + 1) mod page = p mod page + 1.
Proof.
  intros Hpg Hlt.
  pose proof (Z.mod_pos_bound p page Hpg) as Hb.
  rewrite Z.add_mod by lia.
  rewrite (Z.mod_small 1 page) by lia.
  apply Z.mod_small. lia.
Qed.

Lemma dev_store_shape d bs :
  dev_width (dev_store d bs) = dev_width d /\
  dev_size (dev_store d bs) = dev_size d /\
  dev_page (dev_store d bs) = dev_page d.
Proof.
  revert d. induction bs as [|b bs IH]; intros d; simpl; [done|].
  destruct (IH (set_ptr (poke d b) (next_in_page (dev_page d) (dev_ptr d))))
    as (-> & -> & ->). done.
Qed.

(** Cells outside the stored range keep their contents. *)
Lemma dev_store_frame bs : forall d a,
  0 < dev_page d ->
  dev_ptr d mod dev_page d + Z.of_nat (length bs) <= dev_page d ->
  a < dev_ptr d \/ dev_ptr d + Z.of_nat (length bs) <= a ->
  dev_mem (dev_store d bs) !!! a = dev_mem d !!! a.
Proof.
  induction bs as [|b bs IH]; intros d a Hpg Hfit Hout; simpl; [done|].
  simpl length in *.
  destruct bs as [|b' bs'].
  - simpl. rewrite lookup_total_insert_ne; [done | lia].
  - rewrite IH.
    + simpl. rewrite lookup_total_insert_ne; [done | lia].
    + done.
    + simpl dev_ptr. simpl dev_page.
      rewrite next_in_page_succ by (simpl length in *; lia).
      rewrite mod_succ_in_page by (simpl length in *; lia). lia.
    + simpl dev_ptr.
      rewrite next_in_page_succ by (simpl length in *; lia). lia.
Qed.

(** The stored range holds the bytes written, in order. *)
Lemma dev_store_cells bs : forall d,
  0 < dev_page d ->
  dev_ptr d mod dev_page d + Z.of_nat (length bs) <= dev_page d ->
  cells (dev_mem (dev_store d bs)) (dev_ptr d) (length bs) = bs.
Proof.
  induction bs as [|b bs IH]; intros d Hpg Hfit; [done|].
  simpl length in *. simpl cells. simpl dev_store.
  destruct bs as [|b' bs'].
  - simpl. by rewrite lookup_total_insert_eq.
  - set (d1 := set_ptr (poke d b) (next_in_page (dev_page d) (dev_ptr d))).
    assert (Hp1 : dev_ptr d1 = dev_ptr d + 1).
    { subst d1. simpl dev_ptr.
      apply next_in_page_succ; simpl length in *; lia. }
    assert (Hfit1 : dev_ptr d1 mod dev_page d1
                    + Z.of_nat (length (b' :: bs')) <= dev_page d1).
    { rewrite Hp1. subst d1. simpl dev_page.
      rewrite mod_succ_in_page by (simpl length in *; lia). lia. }
    f_equal.
    + rewrite dev_store_frame; [| done | done | lia].
      subst d1. simpl. by rewrite lookup_total_insert_eq.
    + rewrite <- Hp1. by apply IH.
Qed.

Lemma dev_load_shape n : forall d,
  dev_width (dev_load d n).2 = dev_width d /\
  dev_size (dev_load d n).2 = dev_size d /\
  dev_page (dev_load d n).2 = dev_page d /\
  dev_mem (dev_load d n).2 = dev_mem d.
Proof.
  induction n as [|n IH]; intros d; simpl; [done|].
  specialize (IH (set_ptr d (next_in_array (dev_size d) (dev_ptr d)))).
  destruct (dev_load _ n) as [bs d']. simpl in *. done.
Qed.

Lemma dev_load_succ d n :
  (dev_load d (S n)).1 =
  dev_peek d (dev_ptr d)
    :: (dev_load (set_ptr d (next_in_array (dev_size d) (dev_ptr d))) n).1.
Proof. simpl. by destruct (dev_load _ n). Qed.

(** A read that stays inside the array returns the cells at the pointer. *)
Lemma dev_load_cells n : forall d,
  0 <= dev_ptr d ->
  dev_ptr d + Z.of_nat n <= dev_size d ->
  (dev_load d n).1 = cells (dev_mem d) (dev_ptr d) n.
Proof.
  induction n as [|n IH]; intros d Hp Hfit; [done|].
  rewrite dev_load_succ. simpl cells. unfold dev_peek. f_equal.
  destruct n as [|n]; [done|].
  set (d1 := set_ptr d (next_in_array (dev_size d) (dev_ptr d))).
  assert (Hp1 : dev_ptr d1 = dev_ptr d + 1).
  { subst d1. simpl. unfold next_in_array. apply Z.mod_small. lia. }
  rewrite IH; [by rewrite Hp1 | lia | subst d1; simpl dev_size; lia].
Qed.

(** Memories that agree on a range have the same cells there. *)
Lemma cells_ext m1 m2 n : forall p,
  (forall a, p <= a < p + Z.of_nat n -> m1 !!! a = m2 !!! a) ->
  cells m1 p n = cells m2 p n.
Proof.
  induction n as [|n IH]; intros p Hag; simpl; [done|].
  f_equal; [apply Hag; lia|]. apply IH. intros a Ha. apply Hag. lia.
Qed.

(** A range of cells that all hold [c]. *)
Lemma cells_replicate m c n : forall p,
  (forall a, p <= a < p + Z.of_nat n -> m !!! a = c) ->
  cells m p n = replicate n c.
Proof.
  induction n as [|n IH]; intros p Hc; simpl; [done|].
  f_equal; [apply Hc; lia|]. apply IH. intros a Ha. apply Hc. lia.
Qed.

Lemma cells_lookup m n : forall p a,
  p <= a < p + Z.of_nat n ->
  cells m p n !! Z.to_nat (a - p) = Some (m !!! a).
Proof.
  induction n as [|n IH]; intros p a Ha; [lia|].
  simpl. destruct (decide (a = p)) as [->|Hne].
  - by rewrite Z.sub_diag.
  - replace (Z.to_nat (a - p)) with (S (Z.to_nat (a - (p + 1)))) by lia.
    simpl. apply IH. lia.
Qed.

End DeviceFacts.

(* ===================================================================== *)
(** ** The bus primitive and the i2c wrapper on a device that answers *)
(* ===================================================================== *)

Section BusFacts.
Context `{Board}.

Lemma dev_store_same_shape d bs : dev_shape (dev_store d bs) = dev_shape d.
Proof.
  unfold dev_shape. by destruct (dev_store_shape d bs) as (-> & -> & ->).
Qed.

Lemma dev_load_same_shape d n : dev_shape (dev_load d n).2 = dev_shape d.
Proof.
  unfold dev_shape. by destruct (dev_load_shape n d) as (-> & -> & -> & _).
Qed.

Lemma bus_write_log a p st :
  log (bus_write a p st).2 = log st ++ [TxWrite a p].
Proof. unfold bus_write. by destruct (devices st !! a). Qed.

Lemma bus_read_log a len st :
  log (bus_read a len st).2 = log st ++ [TxRead a len].
Proof.
  unfold bus_read. destruct (devices st !! a); [|done].
  by destruct (dev_read_txn _ len).
Qed.

Lemma bus_write_other a b p st :
  a <> b -> devices (bus_write a p st).2 !! b = devices st !! b.
Proof.
  intros Hne. unfold bus_write. destruct (devices st !! a); [|done].
  simpl. by rewrite lookup_insert_ne.
Qed.

Lemma bus_read_other a b len st :
  a <> b -> devices (bus_read a len st).2 !! b = devices st !! b.
Proof.
  intros Hne. unfold bus_read. destruct (devices st !! a); [|done].
  destruct (dev_read_txn _ len). simpl. by rewrite lookup_insert_ne.
Qed.

Lemma bus_write_present a p st d :
  devices st !! a = Some d ->
  (bus_write a p st).1 = true /\
  devices (bus_write a p st).2 !! a = Some (dev_write_txn d p).
Proof.
  intros Hd. unfold bus_write. rewrite Hd. simpl.
  by rewrite lookup_insert_eq.
Qed.

Lemma bus_read_present a len st d :
  devices st !! a = Some d ->
  (bus_read a len st).1 = Some (dev_load d (Z.to_nat len)).1 /\
  devices (bus_read a len st).2 !! a = Some (dev_load d (Z.to_nat len)).2.
Proof.
  intros Hd. unfold bus_read, dev_read_txn. rewrite Hd.
  destruct (dev_load d (Z.to_nat len)). simpl.
  by rewrite lookup_insert_eq.
Qed.

Lemma decode_be_enc16 reg : decode_be (enc16 reg) = uint16 reg.
Proof.
  unfold decode_be, enc16. simpl.
  pose proof (Z.div_mod (uint16 reg) 256 ltac:(lia)). lia.
Qed.

Lemma dev_write_txn_split d a data :
  length a = dev_width d ->
  dev_write_txn d (a ++ data) = dev_store (set_ptr d (reg_ptr d a)) data.
Proof.
  intros Hw. unfold dev_write_txn.
  rewrite length_app, <- Hw.
  destruct (Nat.ltb_spec (length a + length data) (length a)); [lia|].
  by rewrite take_app_length, drop_app_length.
Qed.

Lemma dev_write_txn_addr d a :
  length a = dev_width d -> dev_write_txn d a = set_ptr d (reg_ptr d a).
Proof.
  intros Hw. rewrite <- (app_nil_r a) at 1. by rewrite dev_write_txn_split.
Qed.

Lemma wr_blk_log enc dev reg buf len st :
  log (wr_blk enc dev reg buf len st).2
  = log st ++ [TxWrite dev (enc reg ++ take (Z.to_nat len) buf)].
Proof.
  unfold wr_blk. io_unfold.
  pose proof (bus_write_log dev (enc reg ++ take (Z.to_nat len) buf) st) as Hl.
  by destruct (bus_write dev _ st).
Qed.

Lemma rd_blk_log enc dev reg buf len st :
  log (rd_blk enc dev reg buf len st).2
  = log st ++ [TxWrite dev (enc reg); TxRead dev len].
Proof.
  unfold rd_blk. io_unfold.
  pose proof (bus_write_log dev (enc reg) st) as Hw.
  destruct (bus_write dev (enc reg) st) as [ok st1].
  pose proof (bus_read_log dev len st1) as Hr.
  destruct (bus_read dev len st1) as [r st2]. simpl in *.
  rewrite Hr, Hw, <- app_assoc. done.
Qed.

Lemma wr_blk_other enc dev b reg buf len st :
  dev <> b -> devices (wr_blk enc dev reg buf len st).2 !! b = devices st !! b.
Proof.
  intros Hne. unfold wr_blk. io_unfold.
  pose proof (bus_write_other dev b (enc reg ++ take (Z.to_nat len) buf) st Hne).
  by destruct (bus_write dev _ st).
Qed.

Lemma rd_blk_other enc dev b reg buf len st :
  dev <> b -> devices (rd_blk enc dev reg buf len st).2 !! b = devices st !! b.
Proof.
  intros Hne. unfold rd_blk. io_unfold.
  pose proof (bus_write_other dev b (enc reg) st Hne) as Hw.
  destruct (bus_write dev (enc reg) st) as [ok st1].
  pose proof (bus_read_other dev b len st1 Hne) as Hr.
  destruct (bus_read dev len st1) as [r st2]. simpl in *. congruence.
Qed.

Lemma wr_blk_present enc dev reg buf len st d :
  devices st !! dev = Some d ->
  (wr_blk enc dev reg buf len st).1 = i2c_ret true /\
  devices (wr_blk enc dev reg buf len st).2 !! dev
  = Some (dev_write_txn d (enc reg ++ take (Z.to_nat len) buf)).
Proof.
  intros Hd. unfold wr_blk. io_unfold.
  destruct (bus_write_present dev (enc reg ++ take (Z.to_nat len) buf) st d Hd)
    as [Hok Hdev].
  destruct (bus_write dev _ st) as [ok st1]. simpl in *. by subst ok.
Qed.

Lemma rd_blk_present enc dev reg buf len st d :
  devices st !! dev = Some d ->
  let d1 := dev_write_txn d (enc reg) in
  (rd_blk enc dev reg buf len st).1
  = (i2c_ret true, (dev_load d1 (Z.to_nat len)).1 ++ drop (Z.to_nat len) buf) /\
  devices (rd_blk enc dev reg buf len st).2 !! dev
  = Some (dev_load d1 (Z.to_nat len)).2.
Proof.
  intros Hd d1. unfold rd_blk. io_unfold.
  destruct (bus_write_present dev (enc reg) st d Hd) as [Hok Hdev].
  destruct (bus_write dev (enc reg) st) as [ok st1]. simpl in Hok, Hdev.
  destruct (bus_read_present dev len st1 _ Hdev) as [Hr Hdev2].
  destruct (bus_read dev len st1) as [r st2]. simpl in *.
  subst ok r. done.
Qed.

(** A block write that stays inside one write page: the cells from the
    register address on hold the bytes sent, every other cell is as before. *)
Lemma wr_blk_cells enc dev reg buf len st d :
  devices st !! dev = Some d ->
  length (enc reg) = dev_width d ->
  0 < dev_page d ->
  0 <= len <= Z.of_nat (length buf) ->
  reg_ptr d (enc reg) mod dev_page d + len <= dev_page d ->
  exists d',
    devices (wr_blk enc dev reg buf len st).2 !! dev = Some d' /\
    dev_shape d' = dev_shape d /\
    cells (dev_mem d') (reg_ptr d (enc reg)) (Z.to_nat len)
    = take (Z.to_nat len) buf /\
    (forall a, a < reg_ptr d (enc reg) \/ reg_ptr d (enc reg) + len <= a ->
               dev_mem d' !!! a = dev_mem d !!! a).
Proof.
  intros Hd Hw Hpg Hlen Hfit.
  destruct (wr_blk_present enc dev reg buf len st d Hd) as [_ Hdev].
  rewrite dev_write_txn_split in Hdev by done.
  set (p := reg_ptr d (enc reg)) in *.
  set (bs := take (Z.to_nat len) buf) in *.
  assert (Hbs : Z.of_nat (length bs) = len).
  { subst bs. rewrite length_take. lia. }
  exists (dev_store (set_ptr d p) bs). split; [done|]. split; [|split].
  - by rewrite dev_store_same_shape.
  - rewrite <- Hbs at 1. rewrite Nat2Z.id.
    apply (dev_store_cells bs (set_ptr d p)); simpl; lia.
  - intros a Ha.
    rewrite (dev_store_frame bs (set_ptr d p) a); simpl; try done; lia.
Qed.

(** A block read that stays inside the array: the caller's buffer receives
    the cells from the register address on; no cell changes. *)
Lemma rd_blk_cells enc dev reg rbuf len st d :
  devices st !! dev = Some d ->
  length (enc reg) = dev_width d ->
  0 <= reg_ptr d (enc reg) ->
  0 <= len ->
  reg_ptr d (enc reg) + len <= dev_size d ->
  (rd_blk enc dev reg rbuf len st).1
  = (i2c_ret true,
     cells (dev_mem d) (reg_ptr d (enc reg)) (Z.to_nat len)
       ++ drop (Z.to_nat len) rbuf) /\
  exists d',
    devices (rd_blk enc dev reg rbuf len st).2 !! dev = Some d' /\
    dev_shape d' = dev_shape d /\
    dev_mem d' = dev_mem d.
Proof.
  intros Hd Hw Hp Hlen Hfit.
  destruct (rd_blk_present enc dev reg rbuf len st d Hd) as [Hres Hdev].
  rewrite dev_write_txn_addr in Hres, Hdev by done.
  set (p := reg_ptr d (enc reg)) in *.
  split.
  - rewrite Hres. f_equal. f_equal.
    rewrite dev_load_cells; simpl; [done | lia | lia].
  - eexists. split; [exact Hdev|]. split.
    + by rewrite dev_load_same_shape.
    + by destruct (dev_load_shape (Z.to_nat len) (set_ptr d p)) as (_ & _ & _ & ->).
Qed.

End BusFacts.

(* ===================================================================== *)
(** ** The accessors of main.c on devices that answer *)
(* ===================================================================== *)

Section AccessorFacts.
Context `{Board}.

(** What the arrays of [rtc_init] and of [main] hold before they are
    initialised. *)
Context (rtc_reg0 i2c_buf0 : nat -> Z).

(** [memset] over the whole of an array leaves nothing of what it held. *)
Lemma memset_new_array n c junk :
  0 <= n -> memset (new_array n junk) c n = replicate (Z.to_nat n) (uint8 c).
Proof.
  intros Hn. unfold memset, new_array.
  rewrite drop_ge; [by rewrite app_nil_r|].
  by rewrite length_map, length_seq.
Qed.

Lemma issued_app st st' tr : log st' = log st ++ tr -> issued st st' = tr.
Proof. intros Hl. unfold issued. by rewrite Hl, drop_app_length. Qed.

Lemma issued_refl st : issued st st = [].
Proof. unfold issued. by rewrite drop_all. Qed.

Lemma uint8_small z : 0 <= z < 256 -> uint8 z = z.
Proof. intros Hz. unfold uint8. by apply Z.mod_small. Qed.

Lemma uint16_small z : 0 <= z < 65536 -> uint16 z = z.
Proof. intros Hz. unfold uint16. by apply Z.mod_small. Qed.

Lemma ds1307_ram_ptr d : is_ds1307 d -> reg_ptr d (enc8 RTC_REG_RAM_BUF_START) = 8.
Proof. unfold is_ds1307, dev_shape. intros [= _ Hs _]. unfold reg_ptr. by rewrite Hs. Qed.

Lemma at24c32_ptr d reg :
  is_at24c32 d -> 0 <= reg < 4096 -> reg_ptr d (enc16 reg) = reg.
Proof.
  intros (_ & Hs & _) Hreg. unfold reg_ptr.
  rewrite decode_be_enc16, Hs, uint16_small by lia. apply Z.mod_small. lia.
Qed.

(** *** Accepted lengths are handed to the wrapper *)

Lemma rtc_set_ram_buf_fwd buf len st :
  0 <= len < 56 ->
  rtc_set_ram_buf buf len st
  = i2c_wr_addr_blk DS1307 RTC_REG_RAM_BUF_START buf len st.
Proof.
  intros Hlen. unfold rtc_set_ram_buf. rewrite uint8_small by lia.
  destruct (Z.geb_spec len RTC_RAM_SIZE) as [Hge|]; [|done].
  change RTC_RAM_SIZE with 56 in Hge. lia.
Qed.

Lemma rtc_get_ram_buf_fwd buf len st :
  0 <= len < 56 ->
  rtc_get_ram_buf buf len st
  = i2c_rd_addr_blk DS1307 RTC_REG_RAM_BUF_START buf len st.
Proof.
  intros Hlen. unfold rtc_get_ram_buf. rewrite uint8_small by lia.
  destruct (Z.geb_spec len RTC_RAM_SIZE) as [Hge|]; [|done].
  change RTC_RAM_SIZE with 56 in Hge. lia.
Qed.

Lemma eeprom_get_data_fwd reg buf len st :
  0 <= len < 4096 ->
  eeprom_get_data reg buf len st
  = i2c_rd_addr16_blk AT24C32 (uint16 reg) buf len st.
Proof.
  intros Hlen. unfold eeprom_get_data. rewrite (uint16_small len) by lia.
  destruct (Z.geb_spec len EEPROM_SIZE) as [Hge|]; [|done].
  change EEPROM_SIZE with 4096 in Hge. lia.
Qed.

(** The 8-bit length of [eeprom_set_data] is below [EEPROM_SIZE] whatever
    the argument was. *)
Lemma eeprom_set_data_fwd reg buf len st :
  eeprom_set_data reg buf len st
  = i2c_wr_addr16_blk AT24C32 (uint16 reg) buf (uint8 len) st.
Proof.
  unfold eeprom_set_data.
  destruct (Z.geb_spec (uint8 len) EEPROM_SIZE) as [Hge|]; [|done].
  change EEPROM_SIZE with 4096 in Hge. unfold uint8 in Hge.
  pose proof (Z.mod_pos_bound len 256 ltac:(lia)). lia.
Qed.

(** *** Rejected lengths leave the bus alone *)

Lemma rtc_set_ram_buf_reject buf len st :
  56 <= len < 256 -> rtc_set_ram_buf buf len st = (-1, st).
Proof.
  intros Hlen. unfold rtc_set_ram_buf. rewrite uint8_small by lia.
  destruct (Z.geb_spec len RTC_RAM_SIZE) as [|Hlt]; [done|].
  change RTC_RAM_SIZE with 56 in Hlt. lia.
Qed.

Lemma rtc_get_ram_buf_reject buf len st :
  56 <= len < 256 -> rtc_get_ram_buf buf len st = ((-1, buf), st).
Proof.
  intros Hlen. unfold rtc_get_ram_buf. rewrite uint8_small by lia.
  destruct (Z.geb_spec len RTC_RAM_SIZE) as [|Hlt]; [done|].
  change RTC_RAM_SIZE with 56 in Hlt. lia.
Qed.

Lemma eeprom_get_data_reject reg buf len st :
  4096 <= len < 65536 -> eeprom_get_data reg buf len st = ((-1, buf), st).
Proof.
  intros Hlen. unfold eeprom_get_data. rewrite (uint16_small len) by lia.
  destruct (Z.geb_spec len EEPROM_SIZE) as [|Hlt]; [done|].
  change EEPROM_SIZE with 4096 in Hlt. lia.
Qed.

(** *** What the accessors do to the addressed device *)

Lemma rtc_set_ram_buf_cells st d buf len :
  devices st !! DS1307 = Some d -> is_ds1307 d ->
  0 <= len < 56 -> len <= Z.of_nat (length buf) ->
  exists d',
    devices (rtc_set_ram_buf buf len st).2 !! DS1307 = Some d' /\
    is_ds1307 d' /\
    cells (dev_mem d') 8 (Z.to_nat len) = take (Z.to_nat len) buf.
Proof.
  intros Hd Hsh Hlen Hbuf. rewrite rtc_set_ram_buf_fwd by done.
  pose proof (ds1307_ram_ptr d Hsh) as Hp.
  pose proof Hsh as Hsh'. unfold is_ds1307, dev_shape in Hsh'.
  injection Hsh' as Hw Hs Hpg.
  destruct (wr_blk_cells enc8 DS1307 RTC_REG_RAM_BUF_START buf len st d)
    as (d' & Hd' & Hsh2 & Hc & _); try done; try lia.
  { rewrite Hp, Hpg. change (8 mod 64) with 8. lia. }
  exists d'. rewrite Hp in Hc. unfold is_ds1307. by rewrite Hsh2.
Qed.

Lemma rtc_get_ram_buf_cells st d rbuf len :
  devices st !! DS1307 = Some d -> is_ds1307 d ->
  0 <= len < 56 ->
  (rtc_get_ram_buf rbuf len st).1
  = (i2c_ret true,
     cells (dev_mem d) 8 (Z.to_nat len) ++ drop (Z.to_nat len) rbuf).
Proof.
  intros Hd Hsh Hlen. rewrite rtc_get_ram_buf_fwd by done.
  pose proof (ds1307_ram_ptr d Hsh) as Hp.
  pose proof Hsh as Hsh'. unfold is_ds1307, dev_shape in Hsh'.
  injection Hsh' as Hw Hs Hpg.
  destruct (rd_blk_cells enc8 DS1307 RTC_REG_RAM_BUF_START rbuf len st d)
    as (Hres & _); try done; try lia.
  by rewrite Hp in Hres.
Qed.

Lemma eeprom_set_data_cells st d reg buf len :
  devices st !! AT24C32 = Some d -> is_at24c32 d ->
  0 <= reg < 4096 -> 0 <= len < 256 -> len <= Z.of_nat (length buf) ->
  in_one_page d reg len ->
  exists d',
    devices (eeprom_set_data reg buf len st).2 !! AT24C32 = Some d' /\
    is_at24c32 d' /\ dev_page d' = dev_page d /\
    cells (dev_mem d') reg (Z.to_nat len) = take (Z.to_nat len) buf.
Proof.
  intros Hd Hsh Hreg Hlen Hbuf Hpage.
  rewrite eeprom_set_data_fwd, uint8_small, uint16_small by lia.
  pose proof (at24c32_ptr d reg Hsh Hreg) as Hp.
  destruct Hsh as (Hw & Hs & Hpg).
  destruct (wr_blk_cells enc16 AT24C32 reg buf len st d)
    as (d' & Hd' & Hsh2 & Hc & _); try done; try lia.
  { by rewrite Hp. }
  exists d'. rewrite Hp in Hc. unfold dev_shape in Hsh2.
  injection Hsh2 as Hw2 Hs2 Hpg2.
  unfold is_at24c32. rewrite Hw2, Hs2, Hpg2. done.
Qed.

Lemma eeprom_get_data_cells st d reg rbuf len :
  devices st !! AT24C32 = Some d -> is_at24c32 d ->
  0 <= reg < 4096 -> 0 <= len < 4096 -> reg + len <= 4096 ->
  (eeprom_get_data reg rbuf len st).1
  = (i2c_ret true,
     cells (dev_mem d) reg (Z.to_nat len) ++ drop (Z.to_nat len) rbuf).
Proof.
  intros Hd Hsh Hreg Hlen Hfit.
  rewrite eeprom_get_data_fwd, uint16_small by lia.
  pose proof (at24c32_ptr d reg Hsh ltac:(lia)) as Hp.
  destruct Hsh as (Hw & Hs & Hpg).
  destruct (rd_blk_cells enc16 AT24C32 reg rbuf len st d)
    as (Hres & _); try done; try lia.
  by rewrite Hp in Hres.
Qed.

(** *** A read fills the buffer in place *)

Lemma dev_load_length n : forall d, length (dev_load d n).1 = n.
Proof.
  induction n as [|n IH]; intros d; [done|].
  rewrite dev_load_succ. simpl. by rewrite IH.
Qed.

Lemma bus_read_length a len st bs :
  (bus_read a len st).1 = Some bs -> length bs = Z.to_nat len.
Proof.
  unfold bus_read, dev_read_txn. destruct (devices st !! a) as [d|]; [|done].
  pose proof (dev_load_length (Z.to_nat len) d) as Hl.
  destruct (dev_load d (Z.to_nat len)) as [bs' d']. simpl in *.
  intros [= <-]. done.
Qed.

Lemma rd_blk_length enc dev reg buf len st :
  (Z.to_nat len <= length buf)%nat ->
  length (rd_blk enc dev reg buf len st).1.2 = length buf.
Proof.
  intros Hlen. unfold rd_blk. io_unfold.
  destruct (bus_write dev (enc reg) st) as [ok st1].
  pose proof (bus_read_length dev len st1) as Hl.
  destruct (bus_read dev len st1) as [[bs|] st2]; simpl in *; [|done].
  rewrite length_app, length_drop, (Hl bs eq_refl). lia.
Qed.

Lemma rtc_get_ram_buf_length buf len st :
  (Z.to_nat (uint8 len) <= length buf)%nat ->
  length (rtc_get_ram_buf buf len st).1.2 = length buf.
Proof.
  intros Hlen. unfold rtc_get_ram_buf.
  destruct (uint8 len >=? RTC_RAM_SIZE); [done|]. by apply rd_blk_length.
Qed.

(** *** Devices at other addresses are never touched *)

Lemma rtc_set_ram_buf_other b buf len st :
  DS1307 <> b -> devices (rtc_set_ram_buf buf len st).2 !! b = devices st !! b.
Proof.
  intros Hne. unfold rtc_set_ram_buf.
  destruct (uint8 len >=? RTC_RAM_SIZE); [done|]. by apply wr_blk_other.
Qed.

Lemma rtc_get_ram_buf_other b buf len st :
  DS1307 <> b -> devices (rtc_get_ram_buf buf len st).2 !! b = devices st !! b.
Proof.
  intros Hne. unfold rtc_get_ram_buf.
  destruct (uint8 len >=? RTC_RAM_SIZE); [done|]. by apply rd_blk_other.
Qed.

Lemma eeprom_set_data_other b reg buf len st :
  AT24C32 <> b ->
  devices (eeprom_set_data reg buf len st).2 !! b = devices st !! b.
Proof. intros Hne. rewrite eeprom_set_data_fwd. by apply wr_blk_other. Qed.

Lemma eeprom_get_data_other b reg buf len st :
  AT24C32 <> b ->
  devices (eeprom_get_data reg buf len st).2 !! b = devices st !! b.
Proof.
  intros Hne. unfold eeprom_get_data.
  destruct (uint16 len >=? EEPROM_SIZE); [done|]. by apply rd_blk_other.
Qed.

(** *** rtc_init *)

Lemma rtc_init_eq st :
  rtc_init rtc_reg0 st
  = (tt, (i2c_wr_addr_byte DS1307 RTC_REG_START_TIME 0
            (i2c_wr_addr_blk DS1307 RTC_REG_RAM_BUF_START
               (replicate 56 0) RTC_RAM_SIZE st).2).2).
Proof.
  unfold rtc_init. io_unfold.
  rewrite (memset_new_array RTC_RAM_SIZE 0 rtc_reg0) by done.
  change (replicate (Z.to_nat RTC_RAM_SIZE) (uint8 0)) with (replicate 56 0).
  destruct (i2c_wr_addr_blk _ _ _ _ st) as [r1 st1]. simpl.
  by destruct (i2c_wr_addr_byte _ _ _ st1).
Qed.

Lemma rtc_init_log st :
  log (rtc_init rtc_reg0 st).2
  = log st ++ [TxWrite DS1307 (8 :: replicate 56 0); TxWrite DS1307 [0; 0]].
Proof.
  rewrite rtc_init_eq. cbn [snd]. unfold i2c_wr_addr_byte, i2c_wr_addr_blk.
  rewrite !wr_blk_log, <- app_assoc. done.
Qed.

Lemma rtc_init_other b st :
  DS1307 <> b -> devices (rtc_init rtc_reg0 st).2 !! b = devices st !! b.
Proof.
  intros Hne. rewrite rtc_init_eq. cbn [snd].
  unfold i2c_wr_addr_byte, i2c_wr_addr_blk. by rewrite !wr_blk_other.
Qed.

Lemma rtc_init_cells st d :
  devices st !! DS1307 = Some d -> is_ds1307 d ->
  exists d',
    devices (rtc_init rtc_reg0 st).2 !! DS1307 = Some d' /\
    is_ds1307 d' /\
    cells (dev_mem d') 8 56 = replicate 56 0.
Proof.
  intros Hd Hsh. rewrite rtc_init_eq. cbn [snd].
  unfold i2c_wr_addr_byte, i2c_wr_addr_blk.
  pose proof Hsh as Hsh'. unfold is_ds1307, dev_shape in Hsh'.
  injection Hsh' as Hw Hs Hpg.
  destruct (wr_blk_cells enc8 DS1307 RTC_REG_RAM_BUF_START
              (replicate 56 0) RTC_RAM_SIZE st d)
    as (d1 & Hd1 & Hsh1 & Hc1 & _); try done; try lia.
  { rewrite (ds1307_ram_ptr d Hsh), Hpg. done. }
  rewrite (ds1307_ram_ptr d Hsh) in Hc1.
  set (st1 := (wr_blk enc8 DS1307 RTC_REG_RAM_BUF_START _ RTC_RAM_SIZE st).2) in *.
  assert (Hsh1' : is_ds1307 d1) by (unfold is_ds1307; by rewrite Hsh1).
  pose proof Hsh1' as Hsh1''. unfold is_ds1307, dev_shape in Hsh1''.
  injection Hsh1'' as Hw1 Hs1 Hpg1.
  assert (Hp0 : reg_ptr d1 (enc8 RTC_REG_START_TIME) = 0).
  { unfold reg_ptr. by rewrite Hs1. }
  destruct (wr_blk_cells enc8 DS1307 RTC_REG_START_TIME [uint8 0] 1 st1 d1)
    as (d2 & Hd2 & Hsh2 & _ & Hfr); try done; try lia.
  { rewrite Hp0, Hpg1. done. }
  exists d2. split; [done|]. split; [unfold is_ds1307; by rewrite Hsh2|].
  transitivity (cells (dev_mem d1) 8 56); [|exact Hc1].
  apply cells_ext. intros a Ha. apply Hfr. rewrite Hp0. lia.
Qed.

(** *** The demo flow of main *)

Lemma main_setup_eq st :
  let zeros := replicate 32 0 in
  let st1 := (rtc_init rtc_reg0 st).2 in
  let st2 := (rtc_set_ram_buf Dummy_RTC_RAM 18 st1).2 in
  let st3 := (eeprom_set_data 0 Dummy_EEPROM 17 st2).2 in
  let r4 := rtc_get_ram_buf zeros 18 st3 in
  let r5 := eeprom_get_data 0 zeros 17 r4.2 in
  main_setup rtc_reg0 i2c_buf0 st = ((r4.1.2, r5.1.2), r5.2).
Proof.
  intros zeros st1 st2 st3 r4 r5. unfold main_setup. io_unfold.
  change (strlen Dummy_RTC_RAM) with 18. change (strlen Dummy_EEPROM) with 17.
  subst st1 st2 st3 r4 r5.
  destruct (rtc_init rtc_reg0 st) as [[] st1]. simpl.
  destruct (rtc_set_ram_buf Dummy_RTC_RAM 18 st1) as [r2 st2]. simpl.
  destruct (eeprom_set_data 0 Dummy_EEPROM 17 st2) as [r3 st3]. simpl.
  rewrite (memset_new_array 32 0 i2c_buf0) by done.
  change (replicate (Z.to_nat 32) (uint8 0)) with zeros.
  destruct (rtc_get_ram_buf zeros 18 st3) as [[r4 b4] st4] eqn:E4. simpl.
  assert (Hz : memset b4 0 32 = zeros).
  { assert (Hb : length b4 = 32%nat).
    { pose proof (rtc_get_ram_buf_length zeros 18 st3) as Hb.
      rewrite E4 in Hb. apply Hb. vm_compute. lia. }
    unfold memset. rewrite drop_ge by (simpl; lia). by rewrite app_nil_r. }
  rewrite Hz.
  by destruct (eeprom_get_data 0 zeros 17 st4) as [[r5 b5] st5].
Qed.

Lemma traffic_cons_eq a t tr :
  txn_addr t = a -> traffic a (t :: tr) = t :: traffic a tr.
Proof. intros Ha. unfold traffic. by rewrite filter_cons_True. Qed.

Lemma traffic_cons_ne a t tr :
  txn_addr t <> a -> traffic a (t :: tr) = traffic a tr.
Proof. intros Ha. unfold traffic. by rewrite filter_cons_False. Qed.

Lemma main_setup_log st :
  log (main_setup rtc_reg0 i2c_buf0 st).2
  = log st ++
    [ TxWrite DS1307 (8 :: replicate 56 0);
      TxWrite DS1307 [0; 0];
      TxWrite DS1307 (8 :: take 18 Dummy_RTC_RAM);
      TxWrite AT24C32 (0 :: 0 :: take 17 Dummy_EEPROM);
      TxWrite DS1307 [8]; TxRead DS1307 18;
      TxWrite AT24C32 [0; 0]; TxRead AT24C32 17 ].
Proof.
  rewrite main_setup_eq. cbn [snd].
  rewrite eeprom_get_data_fwd, rtc_get_ram_buf_fwd by lia.
  rewrite eeprom_set_data_fwd, rtc_set_ram_buf_fwd by lia.
  unfold i2c_rd_addr16_blk, i2c_rd_addr_blk, i2c_wr_addr16_blk, i2c_wr_addr_blk.
  rewrite !rd_blk_log, !wr_blk_log, rtc_init_log.
  rewrite <- !app_assoc. done.
Qed.

(** The time registers as [rtc_get_time_var] decodes them. *)
Lemma rtc_get_time_var_result st d rtc_dat :
  devices st !! DS1307 = Some d -> is_ds1307 d ->
  (rtc_get_time_var rtc_dat st).1
  = decode_time (dev_mem d !!! 0) (dev_mem d !!! 1).
Proof.
  intros Hd Hsh. unfold rtc_get_time_var. io_unfold.
  pose proof Hsh as Hsh'. unfold is_ds1307, dev_shape in Hsh'.
  injection Hsh' as Hw Hs Hpg.
  assert (Hp0 : reg_ptr d (enc8 RTC_REG_START_TIME) = 0).
  { unfold reg_ptr. by rewrite Hs. }
  destruct (rd_blk_cells enc8 DS1307 RTC_REG_START_TIME rtc_dat 2 st d)
    as (Hres & _); try done; try lia.
  unfold i2c_rd_addr_blk. rewrite Hp0 in Hres.
  destruct (rd_blk enc8 DS1307 RTC_REG_START_TIME rtc_dat 2 st)
    as [[r b] st1]. simpl in Hres. injection Hres as _ ->. done.
Qed.

End AccessorFacts.

(* ===================================================================== *)
(** ** Properties of the firmware *)
(* ===================================================================== *)

Section Codec.

Lemma units_digit b : 0 <= b < 256 -> uint8 (Z.land b 0x0F) = b mod 16.
Proof.
  intros Hb. change 0x0F with (Z.ones 4). rewrite Z.land_ones by lia.
  change (2 ^ 4) with 16. unfold uint8. apply Z.mod_small.
  pose proof (Z.mod_pos_bound b 16). lia.
Qed.

Lemma tens_digit b :
  0 <= b < 256 -> uint8 (Z.shiftr (Z.land b 0x70) 4) = (b / 16) mod 8.
Proof.
  intros Hb. rewrite Z.shiftr_land.
  change (Z.shiftr 0x70 4) with (Z.ones 3).
  rewrite Z.land_ones, Z.shiftr_div_pow2 by lia.
  change (2 ^ 4) with 16. change (2 ^ 3) with 8.
  unfold uint8. apply Z.mod_small.
  pose proof (Z.mod_pos_bound (b / 16) 8). lia.
Qed.

Lemma units_bits b i :
  0 <= i -> Z.testbit (b mod 16) i = (i <? 4) && Z.testbit b i.
Proof.
  intros Hi. change 16 with (2 ^ 4). rewrite Z.testbit_mod_pow2 by lia.
  done.
Qed.

Lemma tens_bits b i :
  0 <= i -> Z.testbit ((b / 16) mod 8) i = (i <? 3) && Z.testbit b (i + 4).
Proof.
  intros Hi. change 8 with (2 ^ 3). change 16 with (2 ^ 4).
  rewrite Z.testbit_mod_pow2 by lia.
  by rewrite Z.div_pow2_bits by lia.
Qed.

(** C4: the decode at the end of [rtc_get_time_var] is defined on every
    byte value; for each of the two register bytes the units digit is the
    low 4 bits of the byte and the tens digit is bits 4 to 6 of the byte
    brought down by 4, hence within 0..7; no byte is rejected. *)
Theorem time_codec_digits (sec min : Z) :
  0 <= sec < 256 -> 0 <= min < 256 ->
  let v := decode_time sec min in
  (sec_1 v = sec mod 16 /\ sec_10 v = (sec / 16) mod 8 /\
   min_1 v = min mod 16 /\ min_10 v = (min / 16) mod 8) /\
  (0 <= sec_10 v <= 7 /\ 0 <= min_10 v <= 7) /\
  (forall i, 0 <= i ->
     Z.testbit (sec_1 v) i = (i <? 4) && Z.testbit sec i /\
     Z.testbit (sec_10 v) i = (i <? 3) && Z.testbit sec (i + 4) /\
     Z.testbit (min_1 v) i = (i <? 4) && Z.testbit min i /\
     Z.testbit (min_10 v) i = (i <? 3) && Z.testbit min (i + 4)).
Proof.
  intros Hs Hm v. subst v. unfold decode_time. cbn [sec_1 sec_10 min_1 min_10].
  rewrite !units_digit, !tens_digit by done.
  split; [done|]. split.
  - pose proof (Z.mod_pos_bound (sec / 16) 8).
    pose proof (Z.mod_pos_bound (min / 16) 8). lia.
  - intros i Hi. by rewrite !units_bits, !tens_bits.
Qed.

Example decode_0x45 :
  sec_10 (decode_time 0x45 0x45) = 4 /\ sec_1 (decode_time 0x45 0x45) = 5.
Proof. done. Qed.

Example decode_0x00 :
  sec_10 (decode_time 0x00 0x00) = 0 /\ sec_1 (decode_time 0x00 0x00) = 0.
Proof. done. Qed.

Example decode_0x79 :
  min_10 (decode_time 0x79 0x79) = 7 /\ min_1 (decode_time 0x79 0x79) = 9.
Proof. done. Qed.

End Codec.

(** The digits of 0x45 (valid BCD) and of 0x79 (not BCD: tens bits 7). *)
Lemma time_codec_digits_witness :
  let v := decode_time 0x45 0x79 in
  (sec_1 v = 5 /\ sec_10 v = 4 /\ min_1 v = 9 /\ min_10 v = 7).
Proof.
  intros v.
  exact (proj1 (time_codec_digits 0x45 0x79 ltac:(lia) ltac:(lia))).
Defined.

Section Bounds.
Context `{Board}.

(** What the arrays of [rtc_init] and of [main] hold before they are
    initialised. *)
Context (rtc_reg0 i2c_buf0 : nat -> Z).

(** The three accessors whose length parameter can hold a length at or
    above the capacity refuse it: [rtc_get_ram_buf] and [rtc_set_ram_buf]
    (56..255) and [eeprom_get_data] (4096..65535) return -1, leave the
    caller's buffer alone and issue no bus transaction. *)
Lemma bounds_error_before_bus (reg : Z) (buf : buffer) (len8 len16 : Z) (st : bus) :
  RTC_RAM_SIZE <= len8 < 256 ->
  EEPROM_SIZE <= len16 < 65536 ->
  (rtc_get_ram_buf buf len8 st = ((-1, buf), st) /\
   issued st (rtc_get_ram_buf buf len8 st).2 = []) /\
  (rtc_set_ram_buf buf len8 st = (-1, st) /\
   issued st (rtc_set_ram_buf buf len8 st).2 = []) /\
  (eeprom_get_data reg buf len16 st = ((-1, buf), st) /\
   issued st (eeprom_get_data reg buf len16 st).2 = []).
Proof.
  change RTC_RAM_SIZE with 56. change EEPROM_SIZE with 4096.
  intros H8 H16.
  rewrite rtc_get_ram_buf_reject, rtc_set_ram_buf_reject,
    eeprom_get_data_reject by done.
  cbn [snd]. by rewrite issued_refl.
Qed.

(** The same three accessors at the capacity itself and one byte below
    it: 56 and 4096 are refused with no bus activity, 55 and 4095 are
    handed on to the i2c wrapper. *)
Lemma full_capacity_rejected (reg : Z) (buf : buffer) (st : bus) :
  rtc_set_ram_buf buf 56 st = (-1, st) /\
  rtc_get_ram_buf buf 56 st = ((-1, buf), st) /\
  eeprom_get_data reg buf 4096 st = ((-1, buf), st) /\
  rtc_set_ram_buf buf 55 st
  = i2c_wr_addr_blk DS1307 RTC_REG_RAM_BUF_START buf 55 st /\
  rtc_get_ram_buf buf 55 st
  = i2c_rd_addr_blk DS1307 RTC_REG_RAM_BUF_START buf 55 st /\
  eeprom_get_data reg buf 4095 st
  = i2c_rd_addr16_blk AT24C32 (uint16 reg) buf 4095 st.
Proof.
  rewrite rtc_set_ram_buf_reject, rtc_get_ram_buf_reject,
    eeprom_get_data_reject by lia.
  rewrite rtc_set_ram_buf_fwd, rtc_get_ram_buf_fwd, eeprom_get_data_fwd by lia.
  done.
Qed.

(** C2: [eeprom_set_data] does not do what the claim says.  Called with
    the length 4100, above the capacity, it does not return the bounds
    error: its 8-bit [len] holds 4, the test against [EEPROM_SIZE] is
    false, and the call goes to the i2c wrapper, which puts one write with
    four data bytes on the bus.  [eeprom_get_data], whose [len] is 16 bits
    wide, refuses the same length with no bus activity, in every bus
    state. *)
Theorem eeprom_set_data_overlong_not_refused
    (reg_idx : Z) (buf : buffer) (st : bus) :
  EEPROM_SIZE <= 4100 /\
  uint8 4100 = 4 /\
  eeprom_set_data reg_idx buf 4100 st
  = i2c_wr_addr16_blk AT24C32 (uint16 reg_idx) buf 4 st /\
  issued st (eeprom_set_data reg_idx buf 4100 st).2
  = [TxWrite AT24C32 (enc16 (uint16 reg_idx) ++ take 4 buf)] /\
  eeprom_get_data reg_idx buf 4100 st = ((-1, buf), st) /\
  issued st (eeprom_get_data reg_idx buf 4100 st).2 = [].
Proof.
  split; [done|]. split; [done|]. split; [apply eeprom_set_data_fwd|].
  split.
  - rewrite eeprom_set_data_fwd. apply issued_app.
    unfold i2c_wr_addr16_blk. by rewrite wr_blk_log.
  - rewrite eeprom_get_data_reject by lia. cbn [snd].
    by rewrite issued_refl.
Qed.

(** C3: [eeprom_set_data] does not refuse a length equal to the capacity.
    Called with 4096 its 8-bit [len] holds 0, the test against
    [EEPROM_SIZE] is false, and the call goes to the i2c wrapper, which
    puts the register address on the bus with no data byte.
    [eeprom_get_data] refuses 4096 with no bus activity, in every bus
    state. *)
Theorem eeprom_set_data_full_capacity_not_refused
    (reg_idx : Z) (buf : buffer) (st : bus) :
  uint8 EEPROM_SIZE = 0 /\
  eeprom_set_data reg_idx buf EEPROM_SIZE st
  = i2c_wr_addr16_blk AT24C32 (uint16 reg_idx) buf 0 st /\
  issued st (eeprom_set_data reg_idx buf EEPROM_SIZE st).2
  = [TxWrite AT24C32 (enc16 (uint16 reg_idx))] /\
  eeprom_get_data reg_idx buf EEPROM_SIZE st = ((-1, buf), st) /\
  issued st (eeprom_get_data reg_idx buf EEPROM_SIZE st).2 = [].
Proof.
  split; [done|]. split; [apply eeprom_set_data_fwd|].
  split.
  - rewrite eeprom_set_data_fwd. apply issued_app.
    unfold i2c_wr_addr16_blk. rewrite wr_blk_log.
    change (Z.to_nat (uint8 EEPROM_SIZE)) with 0%nat.
    by rewrite take_0, app_nil_r.
  - rewrite eeprom_get_data_reject by (change EEPROM_SIZE with 4096; lia).
    cbn [snd]. by rewrite issued_refl.
Qed.

(** C9: the bounds-error branch of [eeprom_set_data] cannot be taken.  Its
    length is 8 bits wide, the test against 4096 is false for each of the
    lengths 0..255, and for every register address the call is the call of
    the i2c wrapper, never the local bounds error.  [eeprom_get_data],
    whose length is 16 bits wide, does take the branch. *)
Theorem eeprom_set_data_never_bounds_error
    (reg_idx : Z) (buf : buffer) (len : Z) (st : bus) :
  0 <= reg_idx < 65536 -> 0 <= len <= 255 ->
  (len >=? EEPROM_SIZE) = false /\
  eeprom_set_data reg_idx buf len st
  = i2c_wr_addr16_blk AT24C32 reg_idx buf len st /\
  eeprom_get_data reg_idx buf EEPROM_SIZE st = ((-1, buf), st).
Proof.
  intros Hreg Hlen.
  rewrite eeprom_set_data_fwd, uint8_small, uint16_small by lia.
  split; [|split; [done|]].
  - change EEPROM_SIZE with 4096. lia.
  - apply eeprom_get_data_reject. change EEPROM_SIZE with 4096. lia.
Qed.

(** C10: [rtc_init] clears the RAM with a block write of exactly
    [RTC_RAM_SIZE] = 56 bytes, made by calling [i2c_wr_addr_blk] itself;
    the same buffer and length given to [rtc_set_ram_buf] are refused
    with -1 and nothing reaches the bus. *)
Theorem rtc_init_writes_full_capacity (st : bus) :
  rtc_init rtc_reg0 st
  = (tt, (i2c_wr_addr_byte DS1307 RTC_REG_START_TIME 0
            (i2c_wr_addr_blk DS1307 RTC_REG_RAM_BUF_START
               (replicate 56 0) RTC_RAM_SIZE st).2).2) /\
  RTC_RAM_SIZE = 56 /\
  rtc_set_ram_buf (replicate 56 0) RTC_RAM_SIZE st = (-1, st) /\
  issued st (rtc_set_ram_buf (replicate 56 0) RTC_RAM_SIZE st).2 = [].
Proof.
  split; [apply rtc_init_eq|]. split; [done|].
  rewrite rtc_set_ram_buf_reject by (change RTC_RAM_SIZE with 56; lia).
  cbn [snd]. by rewrite issued_refl.
Qed.

End Bounds.

Lemma eeprom_set_data_never_bounds_error_witness :
  @eeprom_set_data tiny_rtc 0 Dummy_EEPROM 255 board0
  = @i2c_wr_addr16_blk tiny_rtc 0x50 0 Dummy_EEPROM 255 board0.
Proof.
  exact (proj1 (proj2 (@eeprom_set_data_never_bounds_error tiny_rtc
                         0 Dummy_EEPROM 255 board0 ltac:(lia) ltac:(lia)))).
Defined.

Section Transfers.
Context `{Board}.

(** What the arrays of [rtc_init] and of [main] hold before they are
    initialised. *)
Context (rtc_reg0 i2c_buf0 : nat -> Z).

(** C5: whatever its local array held on entry, [rtc_init] issues two
    bus writes and no more: a block write of 56 zero bytes from the RAM
    base offset 0x08, then the control write of value 0 to the start/stop
    register 0.  On a DS1307 that answers, every
    one of the 56 RAM bytes (0x08..0x3F) is then zero, as a read of the 55
    bytes an accessor may ask for shows. *)
Theorem rtc_init_clears_ram (st : bus) (d : device) (rbuf : buffer) :
  devices st !! DS1307 = Some d -> is_ds1307 d ->
  issued st (rtc_init rtc_reg0 st).2
  = [ TxWrite DS1307 (RTC_REG_RAM_BUF_START :: replicate 56 0);
      TxWrite DS1307 [RTC_REG_START_TIME; 0] ] /\
  (exists d',
     devices (rtc_init rtc_reg0 st).2 !! DS1307 = Some d' /\
     forall a, 8 <= a < 8 + RTC_RAM_SIZE -> dev_peek d' a = 0) /\
  (rtc_get_ram_buf rbuf 55 (rtc_init rtc_reg0 st).2).1
  = (i2c_ret true, replicate 55 0 ++ drop 55 rbuf).
Proof.
  intros Hd Hsh. split; [apply issued_app, rtc_init_log|].
  destruct (rtc_init_cells rtc_reg0 st d Hd Hsh) as (d' & Hd' & Hsh' & Hc).
  assert (Hz : forall a, 8 <= a < 8 + RTC_RAM_SIZE -> dev_peek d' a = 0).
  { intros a Ha. change RTC_RAM_SIZE with 56 in Ha.
    pose proof (cells_lookup (dev_mem d') 56 8 a ltac:(lia)) as Hl.
    rewrite Hc in Hl. apply lookup_replicate in Hl as [Hl _]. done. }
  split; [by exists d'|].
  rewrite (rtc_get_ram_buf_cells _ d') by (done || lia).
  f_equal. f_equal. apply cells_replicate. intros a Ha.
  apply Hz. change RTC_RAM_SIZE with 56. lia.
Qed.

(** C6: a block read, with either register-address width, issues exactly
    two bus transactions for any length, zero included: first the write
    that carries nothing but the encoded register address, then the read
    of the requested length. *)
Theorem read_block_two_transactions
    (dev reg : Z) (buf : buffer) (len : Z) (st : bus) :
  log (i2c_rd_addr_blk dev reg buf len st).2
  = log st ++ [TxWrite dev [uint8 reg]; TxRead dev len] /\
  log (i2c_rd_addr16_blk dev reg buf len st).2
  = log st ++ [TxWrite dev [uint16 reg / 256; uint16 reg mod 256];
               TxRead dev len] /\
  length (issued st (i2c_rd_addr_blk dev reg buf len st).2) = 2%nat /\
  length (issued st (i2c_rd_addr16_blk dev reg buf len st).2) = 2%nat.
Proof.
  unfold i2c_rd_addr_blk, i2c_rd_addr16_blk.
  rewrite !(issued_app _ _ _ (rd_blk_log _ _ _ _ _ _)), !rd_blk_log. done.
Qed.

(** C1, as the code has it: a block write followed by a block read at the same
    register address with the same length returns the bytes written: in
    the RTC RAM for every length below 56; in the EEPROM for every length
    that the 8-bit length of [eeprom_set_data] holds (at most 255) and that
    keeps the write inside one write page and inside the 4096 cells. *)
Theorem block_round_trip
    (st : bus) (dr de : device)
    (buf_r rbuf_r : buffer) (len_r : Z)
    (reg : Z) (buf_e rbuf_e : buffer) (len_e : Z) :
  devices st !! DS1307 = Some dr -> is_ds1307 dr ->
  devices st !! AT24C32 = Some de -> is_at24c32 de ->
  0 <= len_r < RTC_RAM_SIZE ->
  len_r <= Z.of_nat (length buf_r) ->
  0 <= len_e <= 255 ->
  len_e <= Z.of_nat (length buf_e) ->
  0 <= reg -> reg + len_e <= EEPROM_SIZE -> reg < EEPROM_SIZE ->
  in_one_page de reg len_e ->
  (rtc_get_ram_buf rbuf_r len_r (rtc_set_ram_buf buf_r len_r st).2).1
  = (i2c_ret true,
     take (Z.to_nat len_r) buf_r ++ drop (Z.to_nat len_r) rbuf_r) /\
  (eeprom_get_data reg rbuf_e len_e (eeprom_set_data reg buf_e len_e st).2).1
  = (i2c_ret true,
     take (Z.to_nat len_e) buf_e ++ drop (Z.to_nat len_e) rbuf_e).
Proof.
  change RTC_RAM_SIZE with 56. change EEPROM_SIZE with 4096.
  intros Hdr Hshr Hde Hshe Hlr Hbr Hle Hbe Hreg Hfit Hlt Hpage. split.
  - destruct (rtc_set_ram_buf_cells st dr buf_r len_r)
      as (d' & Hd' & Hsh' & Hc); try done.
    rewrite (rtc_get_ram_buf_cells _ d') by done. by rewrite Hc.
  - destruct (eeprom_set_data_cells st de reg buf_e len_e)
      as (d' & Hd' & Hsh' & _ & Hc); try done; try lia.
    rewrite (eeprom_get_data_cells _ d') by (done || lia). by rewrite Hc.
Qed.

(** C7, as the code has it: in the demo flow the 17 characters of
    "EEPROM_Dummy_data" ([strlen], the terminating NUL left out) are
    written to the EEPROM at register address 0 and 17 bytes are read back
    from address 0; the bytes read are those 17 characters, and the rest of
    the 32-byte buffer is the zeros [memset] put there. *)
Theorem demo_eeprom_read_back (st : bus) (de : device) :
  devices st !! AT24C32 = Some de -> is_at24c32 de ->
  17 <= dev_page de -> DS1307 <> AT24C32 ->
  strlen Dummy_EEPROM = 17 /\
  (main_setup rtc_reg0 i2c_buf0 st).1.2 = take 17 Dummy_EEPROM ++ replicate 15 0 /\
  traffic AT24C32 (issued st (main_setup rtc_reg0 i2c_buf0 st).2)
  = [ TxWrite AT24C32 (enc16 0 ++ take 17 Dummy_EEPROM);
      TxWrite AT24C32 (enc16 0); TxRead AT24C32 17 ].
Proof.
  intros Hd Hsh Hpg Hne. split; [done|]. split.
  - rewrite main_setup_eq. cbn [fst snd].
    set (st1 := (rtc_init rtc_reg0 st).2).
    set (st2 := (rtc_set_ram_buf Dummy_RTC_RAM 18 st1).2).
    assert (H2 : devices st2 !! AT24C32 = Some de).
    { subst st2 st1. by rewrite rtc_set_ram_buf_other, rtc_init_other. }
    assert (Hin : in_one_page de 0 17).
    { unfold in_one_page. rewrite Z.mod_0_l by lia. lia. }
    destruct (eeprom_set_data_cells st2 de 0 Dummy_EEPROM 17)
      as (d3 & Hd3 & Hsh3 & _ & Hc); try done; try lia.
    set (st3 := (eeprom_set_data 0 Dummy_EEPROM 17 st2).2) in *.
    set (zeros := replicate 32 0).
    assert (H4 : devices (rtc_get_ram_buf zeros 18 st3).2 !! AT24C32 = Some d3).
    { by rewrite rtc_get_ram_buf_other. }
    rewrite (eeprom_get_data_cells _ d3) by (done || lia).
    cbn [snd]. by rewrite Hc.
  - rewrite (issued_app _ _ _ (main_setup_log rtc_reg0 i2c_buf0 st)).
    repeat first [ rewrite traffic_cons_eq by done
                 | rewrite traffic_cons_ne by (simpl; congruence) ].
    done.
Qed.

(** C8, as the code has it: in the demo flow the 18 characters of
    "RTC_RAM_Dummy_data" ([strlen], the terminating NUL left out) are
    written to the RTC RAM at its base offset 0x08 and 18 bytes are read
    back from there; the bytes read are those 18 characters, and the rest
    of the 32-byte buffer is the zeros [memset] put there. *)
Theorem demo_rtc_ram_read_back (st : bus) (dr : device) :
  devices st !! DS1307 = Some dr -> is_ds1307 dr -> DS1307 <> AT24C32 ->
  strlen Dummy_RTC_RAM = 18 /\
  (main_setup rtc_reg0 i2c_buf0 st).1.1 = take 18 Dummy_RTC_RAM ++ replicate 14 0 /\
  traffic DS1307 (issued st (main_setup rtc_reg0 i2c_buf0 st).2)
  = issued st (rtc_init rtc_reg0 st).2 ++
    [ TxWrite DS1307 (enc8 RTC_REG_RAM_BUF_START ++ take 18 Dummy_RTC_RAM);
      TxWrite DS1307 (enc8 RTC_REG_RAM_BUF_START); TxRead DS1307 18 ].
Proof.
  intros Hd Hsh Hne. split; [done|]. split.
  - rewrite main_setup_eq. cbn [fst snd].
    destruct (rtc_init_cells rtc_reg0 st dr Hd Hsh) as (d1 & Hd1 & Hsh1 & _).
    set (st1 := (rtc_init rtc_reg0 st).2) in *.
    destruct (rtc_set_ram_buf_cells st1 d1 Dummy_RTC_RAM 18)
      as (d2 & Hd2 & Hsh2 & Hc); try done.
    set (st2 := (rtc_set_ram_buf Dummy_RTC_RAM 18 st1).2) in *.
    assert (H3 : devices (eeprom_set_data 0 Dummy_EEPROM 17 st2).2 !! DS1307
                 = Some d2).
    { by rewrite eeprom_set_data_other. }
    rewrite (rtc_get_ram_buf_cells _ d2) by done.
    cbn [snd]. by rewrite Hc.
  - rewrite (issued_app _ _ _ (main_setup_log rtc_reg0 i2c_buf0 st)).
    rewrite (issued_app _ _ _ (rtc_init_log rtc_reg0 st)).
    repeat first [ rewrite traffic_cons_eq by done
                 | rewrite traffic_cons_ne by (simpl; congruence) ].
    done.
Qed.

End Transfers.

(* ===================================================================== *)
(** ** The board as wired: instances and failing inputs *)
(* ===================================================================== *)

Lemma rtc_init_clears_ram_witness :
  (@rtc_get_ram_buf tiny_rtc (replicate 55 1) 55 (@rtc_init tiny_rtc stack_junk board0).2).1
  = (0, replicate 55 0).
Proof.
  refine (proj2 (proj2
            (@rtc_init_clears_ram tiny_rtc stack_junk board0 ds1307 (replicate 55 1) _ _)));
    vm_compute; reflexivity.
Defined.

Lemma block_round_trip_witness :
  (@rtc_get_ram_buf tiny_rtc (replicate 32 0) 18
     (@rtc_set_ram_buf tiny_rtc Dummy_RTC_RAM 18 board0).2).1
  = (0, take 18 Dummy_RTC_RAM ++ replicate 14 0) /\
  (@eeprom_get_data tiny_rtc 0x20 (replicate 32 0) 17
     (@eeprom_set_data tiny_rtc 0x20 Dummy_EEPROM 17 board0).2).1
  = (0, take 17 Dummy_EEPROM ++ replicate 15 0).
Proof.
  refine (@block_round_trip tiny_rtc board0 ds1307 at24c32
            Dummy_RTC_RAM (replicate 32 0) 18
            0x20 Dummy_EEPROM (replicate 32 0) 17 _ _ _ _ _ _ _ _ _ _ _ _);
    first [ vm_compute; reflexivity
          | vm_compute; lia
          | vm_compute; intuition discriminate ].
Defined.

Lemma demo_eeprom_read_back_witness :
  (@main_setup tiny_rtc stack_junk stack_junk board0).1.2 = take 17 Dummy_EEPROM ++ replicate 15 0.
Proof.
  refine (proj1 (proj2 (@demo_eeprom_read_back tiny_rtc stack_junk stack_junk board0 at24c32 _ _ _ _)));
    first [ vm_compute; reflexivity
          | vm_compute; lia
          | vm_compute; intuition discriminate ].
Defined.

Lemma demo_rtc_ram_read_back_witness :
  (@main_setup tiny_rtc stack_junk stack_junk board0).1.1 = take 18 Dummy_RTC_RAM ++ replicate 14 0.
Proof.
  refine (proj1 (proj2 (@demo_rtc_ram_read_back tiny_rtc stack_junk stack_junk board0 ds1307 _ _ _)));
    first [ vm_compute; reflexivity
          | vm_compute; lia
          | vm_compute; intuition discriminate ].
Defined.

(** A length of 256 is below the EEPROM capacity, but the 8-bit length of
    [eeprom_set_data] holds 0 and nothing is written; a write of 33 bytes
    from address 0 runs over the end of the 32-byte write page and its last
    byte lands on cell 0.  Neither is read back as written. *)
Lemma eeprom_round_trip_counterexample :
  (256 < EEPROM_SIZE /\
   (@eeprom_get_data tiny_rtc 0 (replicate 256 0) 256
      (@eeprom_set_data tiny_rtc 0 (replicate 256 0xAB) 256 board0).2).1.2
   <> replicate 256 0xAB) /\
  (33 < EEPROM_SIZE /\
   (@eeprom_get_data tiny_rtc 0 (replicate 33 0) 33
      (@eeprom_set_data tiny_rtc 0 (replicate 32 0xAB ++ [0xCD]) 33 board0).2).1.2
   <> replicate 32 0xAB ++ [0xCD]).
Proof.
  split; (split; [done | vm_compute; discriminate]).
Qed.

(** The demo writes and reads [strlen Dummy_EEPROM] = 17 bytes, not 18. *)
Lemma demo_eeprom_length_counterexample :
  strlen Dummy_EEPROM <> 18 /\
  traffic 0x50 (issued board0 (@main_setup tiny_rtc stack_junk stack_junk board0).2)
  = [ TxWrite 0x50 (0 :: 0 :: take 17 Dummy_EEPROM);
      TxWrite 0x50 [0; 0]; TxRead 0x50 17 ] /\
  ~ In (TxRead 0x50 18) (issued board0 (@main_setup tiny_rtc stack_junk stack_junk board0).2).
Proof.
  split; [vm_compute; discriminate|].
  split; [vm_compute; reflexivity | vm_compute; intuition discriminate].
Qed.

(** The demo writes and reads [strlen Dummy_RTC_RAM] = 18 bytes, not 19. *)
Lemma demo_rtc_ram_length_counterexample :
  strlen Dummy_RTC_RAM <> 19 /\
  drop 2 (traffic 0x68 (issued board0 (@main_setup tiny_rtc stack_junk stack_junk board0).2))
  = [ TxWrite 0x68 (8 :: take 18 Dummy_RTC_RAM);
      TxWrite 0x68 [8]; TxRead 0x68 18 ] /\
  ~ In (TxRead 0x68 19) (issued board0 (@main_setup tiny_rtc stack_junk stack_junk board0).2).
Proof.
  split; [vm_compute; discriminate|].
  split; [vm_compute; reflexivity | vm_compute; intuition discriminate].
Qed.

(* ===================================================================== *)
(** ** Further properties: what a transfer leaves alone *)
(* ===================================================================== *)

Section FrameFacts.
Context `{Board}.

Lemma cells_app m n1 n2 : forall p,
  cells m p (n1 + n2) = cells m p n1 ++ cells m (p + Z.of_nat n1) n2.
Proof.
  induction n1 as [|n1 IH]; intros p.
  - simpl. by rewrite Z.add_0_r.
  - simpl. f_equal. rewrite IH. do 2 f_equal. lia.
Qed.

(** A block write inside one page changes no cell outside the range that
    starts at the register address, however short the buffer is. *)
Lemma wr_blk_frame enc dev reg buf len st d :
  devices st !! dev = Some d ->
  length (enc reg) = dev_width d ->
  0 < dev_page d -> 0 <= len ->
  reg_ptr d (enc reg) mod dev_page d + len <= dev_page d ->
  exists d',
    devices (wr_blk enc dev reg buf len st).2 !! dev = Some d' /\
    dev_shape d' = dev_shape d /\
    (forall a, a < reg_ptr d (enc reg) \/ reg_ptr d (enc reg) + len <= a ->
               dev_mem d' !!! a = dev_mem d !!! a).
Proof.
  intros Hd Hw Hpg Hlen Hfit.
  destruct (wr_blk_present enc dev reg buf len st d Hd) as [_ Hdev].
  rewrite dev_write_txn_split in Hdev by done.
  set (p := reg_ptr d (enc reg)) in *.
  set (bs := take (Z.to_nat len) buf) in *.
  assert (Hbs : Z.of_nat (length bs) <= len).
  { subst bs. rewrite length_take. lia. }
  exists (dev_store (set_ptr d p) bs). split; [done|]. split.
  - by rewrite dev_store_same_shape.
  - intros a Ha.
    rewrite (dev_store_frame bs (set_ptr d p) a); simpl; try done; lia.
Qed.

Lemma wr_blk_absent enc dev reg buf len st :
  devices st !! dev = None ->
  (wr_blk enc dev reg buf len st).1 = i2c_ret false /\
  devices (wr_blk enc dev reg buf len st).2 = devices st.
Proof.
  intros Hd. unfold wr_blk, bus_write. io_unfold. by rewrite Hd.
Qed.

Lemma rd_blk_absent enc dev reg buf len st :
  devices st !! dev = None ->
  (rd_blk enc dev reg buf len st).1 = (i2c_ret false, buf) /\
  devices (rd_blk enc dev reg buf len st).2 = devices st.
Proof.
  intros Hd. unfold rd_blk, bus_write, bus_read. io_unfold.
  rewrite Hd. simpl. by rewrite Hd.
Qed.

(** What a block read returns is decided by the addressed device alone. *)
Lemma rd_blk_same_device enc dev reg buf len st1 st2 :
  devices st1 !! dev = devices st2 !! dev ->
  (rd_blk enc dev reg buf len st1).1 = (rd_blk enc dev reg buf len st2).1.
Proof.
  intros Heq. destruct (devices st2 !! dev) as [d|] eqn:H2.
  - destruct (rd_blk_present enc dev reg buf len st1 d Heq) as [-> _].
    by destruct (rd_blk_present enc dev reg buf len st2 d H2) as [-> _].
  - destruct (rd_blk_absent enc dev reg buf len st1 Heq) as [-> _].
    by destruct (rd_blk_absent enc dev reg buf len st2 H2) as [-> _].
Qed.

(** A block read leaves the caller's bytes from [len] on as they were. *)
Lemma rd_blk_tail enc dev reg buf len st :
  (Z.to_nat len <= length buf)%nat ->
  drop (Z.to_nat len) (rd_blk enc dev reg buf len st).1.2
  = drop (Z.to_nat len) buf.
Proof.
  intros Hlen. unfold rd_blk. io_unfold.
  destruct (bus_write dev (enc reg) st) as [ok st1].
  pose proof (bus_read_length dev len st1) as Hl.
  destruct (bus_read dev len st1) as [[bs|] st2]; simpl in *; [|done].
  rewrite drop_app_length'; [done|]. symmetry. by apply Hl.
Qed.

(** A block read with the register-address width of the device changes
    no cell of it. *)
Lemma rd_blk_keeps_mem enc dev reg buf len st d :
  devices st !! dev = Some d ->
  length (enc reg) = dev_width d ->
  exists d',
    devices (rd_blk enc dev reg buf len st).2 !! dev = Some d' /\
    dev_shape d' = dev_shape d /\
    dev_mem d' = dev_mem d.
Proof.
  intros Hd Hw.
  destruct (rd_blk_present enc dev reg buf len st d Hd) as [_ Hdev].
  rewrite dev_write_txn_addr in Hdev by done.
  eexists. split; [exact Hdev|]. split.
  - by rewrite dev_load_same_shape.
  - by destruct (dev_load_shape (Z.to_nat len)
                   (set_ptr d (reg_ptr d (enc reg)))) as (_ & _ & _ & ->).
Qed.

End FrameFacts.

(* ===================================================================== *)
(** ** Further properties of the time decode and of the accessors *)
(* ===================================================================== *)

Section MoreCodec.

(** X1: the decode undoes the register packing.  A register byte made of
    a tens digit 0..7 in bits 4 to 6 and a units digit in bits 0 to 3
    decodes to exactly these two digits, whatever bit 7 (the clock-halt
    bit of the seconds register) holds. *)
Theorem decode_time_of_packed_digits
    (ch_s tens_s units_s ch_m tens_m units_m : Z) :
  0 <= ch_s <= 1 -> 0 <= tens_s <= 7 -> 0 <= units_s <= 15 ->
  0 <= ch_m <= 1 -> 0 <= tens_m <= 7 -> 0 <= units_m <= 15 ->
  decode_time (128 * ch_s + 16 * tens_s + units_s)
              (128 * ch_m + 16 * tens_m + units_m)
  = {| sec_10 := tens_s; sec_1 := units_s;
       min_10 := tens_m; min_1 := units_m |}.
Proof.
  intros Hcs Hts Hus Hcm Htm Hum. unfold decode_time.
  rewrite !units_digit, !tens_digit by lia.
  f_equal; Z.div_mod_to_equations; lia.
Qed.

(** X2: the decode keeps the low seven bits of each register byte and
    nothing else: tens and units put back together give the byte without
    its bit 7. *)
Theorem decode_time_keeps_low_seven_bits (sec min : Z) :
  0 <= sec < 256 -> 0 <= min < 256 ->
  16 * sec_10 (decode_time sec min) + sec_1 (decode_time sec min)
  = sec mod 128 /\
  16 * min_10 (decode_time sec min) + min_1 (decode_time sec min)
  = min mod 128.
Proof.
  intros Hs Hm. unfold decode_time. cbn [sec_1 sec_10 min_1 min_10].
  rewrite !units_digit, !tens_digit by done.
  split; Z.div_mod_to_equations; lia.
Qed.

End MoreCodec.

Lemma decode_time_of_packed_digits_witness :
  decode_time (128 * 1 + 16 * 5 + 9) (128 * 0 + 16 * 2 + 3)
  = {| sec_10 := 5; sec_1 := 9; min_10 := 2; min_1 := 3 |}.
Proof.
  apply (decode_time_of_packed_digits 1 5 9 0 2 3); lia.
Defined.

Lemma decode_time_keeps_low_seven_bits_witness :
  16 * sec_10 (decode_time 0xD9 0x23) + sec_1 (decode_time 0xD9 0x23)
  = 0xD9 mod 128 /\
  16 * min_10 (decode_time 0xD9 0x23) + min_1 (decode_time 0xD9 0x23)
  = 0x23 mod 128.
Proof.
  apply (decode_time_keeps_low_seven_bits 0xD9 0x23); lia.
Defined.

Section MoreAccessors.
Context `{Board}.

Lemma rtc_get_time_var_eq rtc_dat st :
  rtc_get_time_var rtc_dat st
  = (let b := (i2c_rd_addr_blk DS1307 RTC_REG_START_TIME rtc_dat 2 st).1.2 in
     decode_time (nth 0 b 0) (nth 1 b 0),
     (i2c_rd_addr_blk DS1307 RTC_REG_START_TIME rtc_dat 2 st).2).
Proof.
  unfold rtc_get_time_var. io_unfold.
  by destruct (i2c_rd_addr_blk DS1307 RTC_REG_START_TIME rtc_dat 2 st)
    as [[r b] st1].
Qed.

(** X3: on a DS1307 that answers, [rtc_get_time_var] returns the digits
    of the seconds register (0) and of the minutes register (1), whatever
    its local array held before; it issues the pointer write to register 0
    and one read of two bytes, and changes no register of the device. *)
Theorem rtc_get_time_var_reads_clock (st : bus) (d : device) (rtc_dat : buffer) :
  devices st !! DS1307 = Some d -> is_ds1307 d ->
  (rtc_get_time_var rtc_dat st).1
  = decode_time (dev_peek d 0) (dev_peek d 1) /\
  issued st (rtc_get_time_var rtc_dat st).2
  = [TxWrite DS1307 [RTC_REG_START_TIME]; TxRead DS1307 2] /\
  exists d',
    devices (rtc_get_time_var rtc_dat st).2 !! DS1307 = Some d' /\
    is_ds1307 d' /\ dev_mem d' = dev_mem d.
Proof.
  intros Hd Hsh. split; [by apply rtc_get_time_var_result|].
  rewrite rtc_get_time_var_eq. cbn [snd]. unfold i2c_rd_addr_blk. split.
  - apply issued_app. by rewrite rd_blk_log.
  - pose proof Hsh as Hsh'. unfold is_ds1307, dev_shape in Hsh'.
    injection Hsh' as Hw Hs Hpg.
    destruct (rd_blk_keeps_mem enc8 DS1307 RTC_REG_START_TIME rtc_dat 2 st d)
      as (d' & Hd' & Hsh2 & Hm); try done.
    exists d'. unfold is_ds1307. by rewrite Hsh2.
Qed.

(** X4: the bus footprint of the four accessors, for every buffer, length
    and register address.  A call of an RTC accessor addresses the DS1307
    only and a call of an EEPROM accessor the AT24C32 only; a write
    accessor issues at most one transaction and a read accessor at most
    two; no transaction of [rtc_set_ram_buf] carries more than 56 bytes
    (address byte included), no read of [rtc_get_ram_buf] asks for more
    than 55, no transaction of [eeprom_set_data] carries more than 257 and
    no read of [eeprom_get_data] asks for more than 4095. *)
Theorem accessor_bus_footprint (reg : Z) (buf : buffer) (len : Z) (st : bus) :
  (Forall (fun t => txn_addr t = DS1307 /\ txn_bytes t <= 56)
          (issued st (rtc_set_ram_buf buf len st).2) /\
   (length (issued st (rtc_set_ram_buf buf len st).2) <= 1)%nat) /\
  (Forall (fun t => txn_addr t = DS1307 /\ txn_bytes t <= 55)
          (issued st (rtc_get_ram_buf buf len st).2) /\
   (length (issued st (rtc_get_ram_buf buf len st).2) <= 2)%nat) /\
  (Forall (fun t => txn_addr t = AT24C32 /\ txn_bytes t <= 257)
          (issued st (eeprom_set_data reg buf len st).2) /\
   length (issued st (eeprom_set_data reg buf len st).2) = 1%nat) /\
  (Forall (fun t => txn_addr t = AT24C32 /\ txn_bytes t <= 4095)
          (issued st (eeprom_get_data reg buf len st).2) /\
   (length (issued st (eeprom_get_data reg buf len st).2) <= 2)%nat).
Proof.
  pose proof (Z.mod_pos_bound len 256 ltac:(lia)) as H8.
  pose proof (Z.mod_pos_bound len 65536 ltac:(lia)) as H16.
  split; [|split; [|split]].
  - unfold rtc_set_ram_buf.
    destruct (Z.geb_spec (uint8 len) RTC_RAM_SIZE) as [|Hlt].
    + cbn [mret io_ret snd]. rewrite issued_refl. split; [constructor | simpl; lia].
    + unfold i2c_wr_addr_blk.
      rewrite (issued_app _ _ _ (wr_blk_log _ _ _ _ _ _)).
      split; [|simpl; lia]. repeat constructor. cbn [txn_bytes].
      rewrite length_app, length_take. simpl length.
      change RTC_RAM_SIZE with 56 in Hlt. lia.
  - unfold rtc_get_ram_buf.
    destruct (Z.geb_spec (uint8 len) RTC_RAM_SIZE) as [|Hlt].
    + cbn [mret io_ret snd]. rewrite issued_refl. split; [constructor | simpl; lia].
    + unfold i2c_rd_addr_blk.
      rewrite (issued_app _ _ _ (rd_blk_log _ _ _ _ _ _)).
      split; [|simpl; lia]. change RTC_RAM_SIZE with 56 in Hlt.
      repeat constructor; cbn [txn_bytes]; simpl length; lia.
  - rewrite eeprom_set_data_fwd. unfold i2c_wr_addr16_blk.
    rewrite (issued_app _ _ _ (wr_blk_log _ _ _ _ _ _)).
    split; [|done]. repeat constructor. cbn [txn_bytes].
    rewrite length_app, length_take. simpl length. unfold uint8. lia.
  - unfold eeprom_get_data.
    destruct (Z.geb_spec (uint16 len) EEPROM_SIZE) as [|Hlt].
    + cbn [mret io_ret snd]. rewrite issued_refl. split; [constructor | simpl; lia].
    + unfold i2c_rd_addr16_blk.
      rewrite (issued_app _ _ _ (rd_blk_log _ _ _ _ _ _)).
      split; [|simpl; lia]. change EEPROM_SIZE with 4096 in Hlt.
      repeat constructor; cbn [txn_bytes]; simpl length; lia.
Qed.

End MoreAccessors.

Section Isolation.
Context `{Board}.

(** What the arrays of [rtc_init] and of [main] hold before they are
    initialised. *)
Context (rtc_reg0 i2c_buf0 : nat -> Z).

Lemma rtc_get_ram_buf_same_device buf len st1 st2 :
  devices st1 !! DS1307 = devices st2 !! DS1307 ->
  (rtc_get_ram_buf buf len st1).1 = (rtc_get_ram_buf buf len st2).1.
Proof.
  intros Heq. unfold rtc_get_ram_buf.
  destruct (uint8 len >=? RTC_RAM_SIZE); [done|].
  by apply rd_blk_same_device.
Qed.

Lemma eeprom_get_data_same_device reg buf len st1 st2 :
  devices st1 !! AT24C32 = devices st2 !! AT24C32 ->
  (eeprom_get_data reg buf len st1).1 = (eeprom_get_data reg buf len st2).1.
Proof.
  intros Heq. unfold eeprom_get_data.
  destruct (uint16 len >=? EEPROM_SIZE); [done|].
  by apply rd_blk_same_device.
Qed.

Lemma rtc_get_time_var_same_device rtc_dat st1 st2 :
  devices st1 !! DS1307 = devices st2 !! DS1307 ->
  (rtc_get_time_var rtc_dat st1).1 = (rtc_get_time_var rtc_dat st2).1.
Proof.
  intros Heq. rewrite !rtc_get_time_var_eq. cbn [fst].
  unfold i2c_rd_addr_blk.
  by rewrite (rd_blk_same_device enc8 DS1307 _ rtc_dat 2 st1 st2 Heq).
Qed.

Lemma rtc_get_time_var_other b rtc_dat st :
  DS1307 <> b ->
  devices (rtc_get_time_var rtc_dat st).2 !! b = devices st !! b.
Proof.
  intros Hne. rewrite rtc_get_time_var_eq. cbn [snd].
  by apply rd_blk_other.
Qed.

(** X5: the two devices do not interfere.  With distinct bus addresses,
    no EEPROM access ([eeprom_set_data], [eeprom_get_data]) changes what a
    later [rtc_get_ram_buf] or [rtc_get_time_var] returns, and no RTC
    access ([rtc_init], [rtc_set_ram_buf], [rtc_get_ram_buf],
    [rtc_get_time_var]) changes what a later [eeprom_get_data] returns;
    this holds for all lengths and buffers and whether or not the devices
    answer. *)
Theorem devices_do_not_interfere
    (st : bus) (reg reg' : Z) (buf buf' rbuf : buffer) (len len' n : Z) :
  DS1307 <> AT24C32 ->
  ((rtc_get_ram_buf rbuf n (eeprom_set_data reg buf len st).2).1
   = (rtc_get_ram_buf rbuf n st).1 /\
   (rtc_get_ram_buf rbuf n (eeprom_get_data reg buf len st).2).1
   = (rtc_get_ram_buf rbuf n st).1 /\
   (rtc_get_time_var rbuf (eeprom_set_data reg buf len st).2).1
   = (rtc_get_time_var rbuf st).1 /\
   (rtc_get_time_var rbuf (eeprom_get_data reg buf len st).2).1
   = (rtc_get_time_var rbuf st).1) /\
  ((eeprom_get_data reg' rbuf n (rtc_init rtc_reg0 st).2).1
   = (eeprom_get_data reg' rbuf n st).1 /\
   (eeprom_get_data reg' rbuf n (rtc_set_ram_buf buf len st).2).1
   = (eeprom_get_data reg' rbuf n st).1 /\
   (eeprom_get_data reg' rbuf n (rtc_get_ram_buf buf' len' st).2).1
   = (eeprom_get_data reg' rbuf n st).1 /\
   (eeprom_get_data reg' rbuf n (rtc_get_time_var buf' st).2).1
   = (eeprom_get_data reg' rbuf n st).1).
Proof.
  intros Hne. split; [split; [|split; [|split]]|split; [|split; [|split]]].
  - apply rtc_get_ram_buf_same_device. apply eeprom_set_data_other. congruence.
  - apply rtc_get_ram_buf_same_device. apply eeprom_get_data_other. congruence.
  - apply rtc_get_time_var_same_device. apply eeprom_set_data_other. congruence.
  - apply rtc_get_time_var_same_device. apply eeprom_get_data_other. congruence.
  - apply eeprom_get_data_same_device. by apply rtc_init_other.
  - apply eeprom_get_data_same_device. by apply rtc_set_ram_buf_other.
  - apply eeprom_get_data_same_device. by apply rtc_get_ram_buf_other.
  - apply eeprom_get_data_same_device. by apply rtc_get_time_var_other.
Qed.

End Isolation.

Lemma devices_do_not_interfere_witness :
  (@rtc_get_ram_buf tiny_rtc (replicate 32 0) 18
     (@eeprom_set_data tiny_rtc 0 Dummy_EEPROM 17 board0).2).1
  = (@rtc_get_ram_buf tiny_rtc (replicate 32 0) 18 board0).1.
Proof.
  refine (proj1 (proj1 (@devices_do_not_interfere tiny_rtc stack_junk board0 0 0
                          Dummy_EEPROM [] (replicate 32 0) 17 0 18 _))).
  vm_compute. discriminate.
Defined.

Section Overwrite.
Context `{Board}.

(** What the arrays of [rtc_init] and of [main] hold before they are
    initialised. *)
Context (rtc_reg0 i2c_buf0 : nat -> Z).

Lemma reg_ptr_same_shape d d' a :
  dev_shape d' = dev_shape d -> reg_ptr d' a = reg_ptr d a.
Proof. unfold dev_shape, reg_ptr. by intros [= _ -> _]. Qed.

(** A block write inside one page, then a block read of at least as many
    bytes from the same register address: the bytes written come back
    first, then the cells that were there before. *)
Lemma blk_overwrite enc dev reg buf rbuf len n st d :
  devices st !! dev = Some d ->
  length (enc reg) = dev_width d ->
  0 < dev_page d ->
  0 <= len <= n -> len <= Z.of_nat (length buf) ->
  reg_ptr d (enc reg) mod dev_page d + len <= dev_page d ->
  0 <= reg_ptr d (enc reg) ->
  reg_ptr d (enc reg) + n <= dev_size d ->
  (rd_blk enc dev reg rbuf n (wr_blk enc dev reg buf len st).2).1
  = (i2c_ret true,
     take (Z.to_nat len) buf
       ++ cells (dev_mem d) (reg_ptr d (enc reg) + len) (Z.to_nat (n - len))
       ++ drop (Z.to_nat n) rbuf).
Proof.
  intros Hd Hw Hpg Hlen Hbuf Hfit Hp Hn.
  destruct (wr_blk_cells enc dev reg buf len st d)
    as (d' & Hd' & Hsh & Hc & Hfr); try done; try lia.
  pose proof (reg_ptr_same_shape d d' (enc reg) Hsh) as Hptr.
  pose proof Hsh as Hsh'. unfold dev_shape in Hsh'.
  injection Hsh' as Hw' Hs' Hpg'.
  destruct (rd_blk_cells enc dev reg rbuf n _ d' Hd')
    as (Hres & _); try (rewrite ?Hptr; lia).
  rewrite Hres, Hptr. f_equal. rewrite app_assoc. f_equal.
  replace (Z.to_nat n) with (Z.to_nat len + Z.to_nat (n - len))%nat by lia.
  rewrite cells_app, Hc, Z2Nat.id by lia. f_equal.
  apply cells_ext. intros a Ha. apply Hfr. lia.
Qed.

(** X6: [rtc_set_ram_buf] never reaches outside the bytes it is asked to
    write.  On a DS1307 that answers, for every buffer and every length
    argument, the time-keeping and control registers 0..7, the RAM cells
    from offset [len] on, and in any case the last RAM byte 0x3F, hold
    after the call what they held before. *)
Theorem rtc_set_ram_buf_keeps_other_cells
    (st : bus) (d : device) (buf : buffer) (len : Z) :
  devices st !! DS1307 = Some d -> is_ds1307 d ->
  exists d',
    devices (rtc_set_ram_buf buf len st).2 !! DS1307 = Some d' /\
    is_ds1307 d' /\
    forall a, a < 8 \/ 8 + uint8 len <= a \/ 63 <= a ->
              dev_peek d' a = dev_peek d a.
Proof.
  intros Hd Hsh. unfold rtc_set_ram_buf.
  pose proof (Z.mod_pos_bound len 256 ltac:(lia)) as H8. fold (uint8 len) in H8.
  destruct (Z.geb_spec (uint8 len) RTC_RAM_SIZE) as [|Hlt].
  { exists d. done. }
  change RTC_RAM_SIZE with 56 in Hlt.
  pose proof (ds1307_ram_ptr d Hsh) as Hp.
  pose proof Hsh as Hsh'. unfold is_ds1307, dev_shape in Hsh'.
  injection Hsh' as Hw Hs Hpg.
  destruct (wr_blk_frame enc8 DS1307 RTC_REG_RAM_BUF_START buf (uint8 len) st d)
    as (d' & Hd' & Hsh2 & Hfr); try done; try lia.
  { rewrite Hp, Hpg. change (8 mod 64) with 8. lia. }
  exists d'. split; [done|]. split; [unfold is_ds1307; by rewrite Hsh2|].
  intros a Ha. apply Hfr. rewrite Hp. lia.
Qed.

(** X7: [rtc_init] and the clock.  On a DS1307 that answers, [rtc_init]
    leaves register 0 (seconds, with the clock-halt bit) at zero and the
    registers 1..7 (minutes up to control) as they were; a time query made
    next decodes seconds 00 and the minutes the clock had. *)
Theorem rtc_init_resets_seconds_only (st : bus) (d : device) (rtc_dat : buffer) :
  devices st !! DS1307 = Some d -> is_ds1307 d ->
  (exists d',
     devices (rtc_init rtc_reg0 st).2 !! DS1307 = Some d' /\
     dev_peek d' 0 = 0 /\
     forall a, 1 <= a < 8 -> dev_peek d' a = dev_peek d a) /\
  (rtc_get_time_var rtc_dat (rtc_init rtc_reg0 st).2).1
  = decode_time 0 (dev_peek d 1).
Proof.
  intros Hd Hsh.
  assert (Hex : exists d',
     devices (rtc_init rtc_reg0 st).2 !! DS1307 = Some d' /\ is_ds1307 d' /\
     dev_peek d' 0 = 0 /\
     forall a, 1 <= a < 8 -> dev_peek d' a = dev_peek d a).
  { rewrite rtc_init_eq. cbn [snd].
    unfold i2c_wr_addr_byte, i2c_wr_addr_blk.
    pose proof Hsh as Hsh'. unfold is_ds1307, dev_shape in Hsh'.
    injection Hsh' as Hw Hs Hpg.
    destruct (wr_blk_frame enc8 DS1307 RTC_REG_RAM_BUF_START
                (replicate 56 0) RTC_RAM_SIZE st d)
      as (d1 & Hd1 & Hsh1 & Hfr1); try done; try lia.
    { rewrite (ds1307_ram_ptr d Hsh), Hpg. done. }
    rewrite (ds1307_ram_ptr d Hsh) in Hfr1.
    set (st1 := (wr_blk enc8 DS1307 RTC_REG_RAM_BUF_START _ RTC_RAM_SIZE st).2)
      in *.
    assert (Hsh1' : is_ds1307 d1) by (unfold is_ds1307; by rewrite Hsh1).
    pose proof Hsh1' as Hsh1''. unfold is_ds1307, dev_shape in Hsh1''.
    injection Hsh1'' as Hw1 Hs1 Hpg1.
    assert (Hp0 : reg_ptr d1 (enc8 RTC_REG_START_TIME) = 0).
    { unfold reg_ptr. by rewrite Hs1. }
    destruct (wr_blk_cells enc8 DS1307 RTC_REG_START_TIME [uint8 0] 1 st1 d1)
      as (d2 & Hd2 & Hsh2 & Hc2 & Hfr2); try done; try lia.
    { rewrite Hp0, Hpg1. done. }
    rewrite Hp0 in Hc2, Hfr2.
    exists d2. split; [done|]. split; [unfold is_ds1307; by rewrite Hsh2|].
    split.
    - by injection Hc2.
    - intros a Ha. unfold dev_peek. rewrite Hfr2 by lia. apply Hfr1. lia. }
  destruct Hex as (d' & Hd' & Hsh' & H0 & H17).
  split; [by exists d'|].
  rewrite (rtc_get_time_var_result _ d') by done.
  unfold dev_peek in *. rewrite H0, H17 by lia. done.
Qed.

Lemma rtc_ram_overwrite st d buf rbuf len n :
  devices st !! DS1307 = Some d -> is_ds1307 d ->
  0 <= len <= n -> n < 56 -> len <= Z.of_nat (length buf) ->
  (rtc_get_ram_buf rbuf n (rtc_set_ram_buf buf len st).2).1
  = (i2c_ret true,
     take (Z.to_nat len) buf
       ++ cells (dev_mem d) (8 + len) (Z.to_nat (n - len))
       ++ drop (Z.to_nat n) rbuf).
Proof.
  intros Hd Hsh Hlen Hn Hbuf.
  rewrite rtc_set_ram_buf_fwd, rtc_get_ram_buf_fwd by lia.
  pose proof (ds1307_ram_ptr d Hsh) as Hp.
  pose proof Hsh as Hsh'. unfold is_ds1307, dev_shape in Hsh'.
  injection Hsh' as Hw Hs Hpg.
  unfold i2c_rd_addr_blk, i2c_wr_addr_blk.
  rewrite (blk_overwrite enc8 DS1307 RTC_REG_RAM_BUF_START buf rbuf len n st d);
    rewrite ?Hp, ?Hpg, ?Hs; try done; try lia.
  change (8 mod 64) with 8. lia.
Qed.

(** X8: a shorter write over RTC RAM, read back longer.  After
    [rtc_set_ram_buf] of [len] bytes, [rtc_get_ram_buf] of [n >= len]
    bytes returns the [len] bytes written followed by the RAM contents
    that were there before, from offset [len] on. *)
Theorem rtc_ram_write_then_longer_read
    (st : bus) (d : device) (buf rbuf : buffer) (len n : Z) :
  devices st !! DS1307 = Some d -> is_ds1307 d ->
  0 <= len <= n -> n < RTC_RAM_SIZE -> len <= Z.of_nat (length buf) ->
  (rtc_get_ram_buf rbuf n (rtc_set_ram_buf buf len st).2).1
  = (i2c_ret true,
     take (Z.to_nat len) buf
       ++ cells (dev_mem d) (8 + len) (Z.to_nat (n - len))
       ++ drop (Z.to_nat n) rbuf).
Proof. change RTC_RAM_SIZE with 56. apply rtc_ram_overwrite. Qed.

(** X10: initialisation, write and read composed.  After [rtc_init]
    (whatever its local array held on entry), a
    [rtc_set_ram_buf] of [len] bytes and a [rtc_get_ram_buf] of [n >= len]
    bytes, the buffer holds the bytes written followed by zeros: what the
    write did not cover is still as [rtc_init] cleared it. *)
Theorem rtc_ram_after_init
    (st : bus) (d : device) (buf rbuf : buffer) (len n : Z) :
  devices st !! DS1307 = Some d -> is_ds1307 d ->
  0 <= len <= n -> n < RTC_RAM_SIZE -> len <= Z.of_nat (length buf) ->
  (rtc_get_ram_buf rbuf n (rtc_set_ram_buf buf len (rtc_init rtc_reg0 st).2).2).1
  = (i2c_ret true,
     take (Z.to_nat len) buf
       ++ replicate (Z.to_nat (n - len)) 0
       ++ drop (Z.to_nat n) rbuf).
Proof.
  change RTC_RAM_SIZE with 56. intros Hd Hsh Hlen Hn Hbuf.
  destruct (rtc_init_cells rtc_reg0 st d Hd Hsh) as (d1 & Hd1 & Hsh1 & Hc).
  rewrite (rtc_ram_overwrite _ d1) by done.
  do 3 f_equal. apply cells_replicate. intros a Ha.
  pose proof (cells_lookup (dev_mem d1) 56 8 a ltac:(lia)) as Hl.
  rewrite Hc in Hl. apply lookup_replicate in Hl as [Hl _]. done.
Qed.

(** X9: the same for the EEPROM.  After [eeprom_set_data] of [len] bytes
    that stay inside one write page, [eeprom_get_data] of [n >= len] bytes
    from the same register address returns the bytes written followed by
    the cells that were there before; the write changes no cell outside
    the [len] cells from [reg] on. *)
Theorem eeprom_write_then_longer_read
    (st : bus) (d : device) (reg : Z) (buf rbuf : buffer) (len n : Z) :
  devices st !! AT24C32 = Some d -> is_at24c32 d ->
  0 <= reg < EEPROM_SIZE -> reg + n <= EEPROM_SIZE -> n < EEPROM_SIZE ->
  0 <= len <= n -> len <= 255 -> len <= Z.of_nat (length buf) ->
  in_one_page d reg len ->
  (eeprom_get_data reg rbuf n (eeprom_set_data reg buf len st).2).1
  = (i2c_ret true,
     take (Z.to_nat len) buf
       ++ cells (dev_mem d) (reg + len) (Z.to_nat (n - len))
       ++ drop (Z.to_nat n) rbuf) /\
  exists d',
    devices (eeprom_set_data reg buf len st).2 !! AT24C32 = Some d' /\
    forall a, a < reg \/ reg + len <= a -> dev_peek d' a = dev_peek d a.
Proof.
  change EEPROM_SIZE with 4096.
  intros Hd Hsh Hreg Hfit Hn Hlen H255 Hbuf Hpage.
  rewrite eeprom_set_data_fwd, eeprom_get_data_fwd by lia.
  rewrite uint8_small, uint16_small by lia.
  pose proof (at24c32_ptr d reg Hsh Hreg) as Hp.
  destruct Hsh as (Hw & Hs & Hpg).
  unfold i2c_rd_addr16_blk, i2c_wr_addr16_blk. split.
  - rewrite (blk_overwrite enc16 AT24C32 reg buf rbuf len n st d);
      rewrite ?Hp, ?Hs; try done; lia.
  - destruct (wr_blk_frame enc16 AT24C32 reg buf len st d)
      as (d' & Hd' & _ & Hfr); rewrite ?Hp; try done; try lia.
    exists d'. split; [done|]. intros a Ha. apply Hfr. rewrite Hp. lia.
Qed.

End Overwrite.

Lemma rtc_get_time_var_reads_clock_witness :
  (@rtc_get_time_var tiny_rtc [0xAA; 0xBB] board0).1 = decode_time 1 1.
Proof.
  refine (proj1 (@rtc_get_time_var_reads_clock tiny_rtc board0 ds1307
                   [0xAA; 0xBB] _ _)); vm_compute; reflexivity.
Defined.

Lemma rtc_set_ram_buf_keeps_other_cells_witness :
  exists d',
    devices (@rtc_set_ram_buf tiny_rtc Dummy_RTC_RAM 18 board0).2 !! 0x68
    = Some d' /\
    is_ds1307 d' /\
    forall a, a < 8 \/ 8 + uint8 18 <= a \/ 63 <= a ->
              dev_peek d' a = dev_peek ds1307 a.
Proof.
  refine (@rtc_set_ram_buf_keeps_other_cells tiny_rtc board0 ds1307
            Dummy_RTC_RAM 18 _ _); vm_compute; reflexivity.
Defined.

Lemma rtc_init_resets_seconds_only_witness :
  (@rtc_get_time_var tiny_rtc [0xAA; 0xBB] (@rtc_init tiny_rtc stack_junk board0).2).1
  = decode_time 0 (dev_peek ds1307 1).
Proof.
  refine (proj2 (@rtc_init_resets_seconds_only tiny_rtc stack_junk board0 ds1307
                   [0xAA; 0xBB] _ _)); vm_compute; reflexivity.
Defined.

Lemma rtc_ram_write_then_longer_read_witness :
  (@rtc_get_ram_buf tiny_rtc (replicate 32 0xEE) 20
     (@rtc_set_ram_buf tiny_rtc Dummy_RTC_RAM 18 board0).2).1
  = (0, take 18 Dummy_RTC_RAM ++ [1; 1] ++ replicate 12 0xEE).
Proof.
  refine (@rtc_ram_write_then_longer_read tiny_rtc board0 ds1307
            Dummy_RTC_RAM (replicate 32 0xEE) 18 20 _ _ _ _ _);
    first [ vm_compute; reflexivity
          | vm_compute; lia
          | vm_compute; intuition discriminate ].
Defined.

Lemma rtc_ram_after_init_witness :
  (@rtc_get_ram_buf tiny_rtc (replicate 32 0xEE) 20
     (@rtc_set_ram_buf tiny_rtc Dummy_RTC_RAM 18
        (@rtc_init tiny_rtc stack_junk board0).2).2).1
  = (0, take 18 Dummy_RTC_RAM ++ [0; 0] ++ replicate 12 0xEE).
Proof.
  refine (@rtc_ram_after_init tiny_rtc stack_junk board0 ds1307
            Dummy_RTC_RAM (replicate 32 0xEE) 18 20 _ _ _ _ _);
    first [ vm_compute; reflexivity
          | vm_compute; lia
          | vm_compute; intuition discriminate ].
Defined.

Lemma eeprom_write_then_longer_read_witness :
  (@eeprom_get_data tiny_rtc 0x40 (replicate 32 0xEE) 20
     (@eeprom_set_data tiny_rtc 0x40 Dummy_EEPROM 17 board0).2).1
  = (0, take 17 Dummy_EEPROM ++ [1; 1; 1] ++ replicate 12 0xEE).
Proof.
  refine (proj1 (@eeprom_write_then_longer_read tiny_rtc board0 at24c32 0x40
                   Dummy_EEPROM (replicate 32 0xEE) 17 20 _ _ _ _ _ _ _ _ _));
    first [ vm_compute; reflexivity
          | vm_compute; lia
          | vm_compute; intuition discriminate ].
Defined.

(* ===================================================================== *)
(** ** Further properties of main *)
(* ===================================================================== *)

Section MoreMain.
Context `{Board}.

(** What the arrays of [rtc_init] and of [main] hold before they are
    initialised. *)
Context (rtc_reg0 i2c_buf0 : nat -> Z).

Lemma rtc_get_ram_buf_tail buf len st :
  (Z.to_nat (uint8 len) <= length buf)%nat ->
  drop (Z.to_nat (uint8 len)) (rtc_get_ram_buf buf len st).1.2
  = drop (Z.to_nat (uint8 len)) buf.
Proof.
  intros Hlen. unfold rtc_get_ram_buf.
  destruct (uint8 len >=? RTC_RAM_SIZE); [done|]. by apply rd_blk_tail.
Qed.

Lemma eeprom_get_data_length reg buf len st :
  (Z.to_nat (uint16 len) <= length buf)%nat ->
  length (eeprom_get_data reg buf len st).1.2 = length buf.
Proof.
  intros Hlen. unfold eeprom_get_data.
  destruct (uint16 len >=? EEPROM_SIZE); [done|]. by apply rd_blk_length.
Qed.

Lemma eeprom_get_data_tail reg buf len st :
  (Z.to_nat (uint16 len) <= length buf)%nat ->
  drop (Z.to_nat (uint16 len)) (eeprom_get_data reg buf len st).1.2
  = drop (Z.to_nat (uint16 len)) buf.
Proof.
  intros Hlen. unfold eeprom_get_data.
  destruct (uint16 len >=? EEPROM_SIZE); [done|]. by apply rd_blk_tail.
Qed.

(** X11: the demo flow of [main] puts the same eight transactions on the
    bus, in the same order, in every bus state: the results of the calls
    are not looked at, so a device that does not answer leads to no retry
    and to no call being skipped. *)
Theorem main_setup_traffic_is_fixed (st : bus) :
  issued st (main_setup rtc_reg0 i2c_buf0 st).2
  = [ TxWrite DS1307 (RTC_REG_RAM_BUF_START :: replicate 56 0);
      TxWrite DS1307 [RTC_REG_START_TIME; 0];
      TxWrite DS1307 (RTC_REG_RAM_BUF_START :: take 18 Dummy_RTC_RAM);
      TxWrite AT24C32 (enc16 0 ++ take 17 Dummy_EEPROM);
      TxWrite DS1307 [RTC_REG_RAM_BUF_START]; TxRead DS1307 18;
      TxWrite AT24C32 (enc16 0); TxRead AT24C32 17 ].
Proof. apply issued_app, main_setup_log. Qed.

(** X12: whatever [i2c_buf] held on entry, whatever the devices return,
    and whether or not they answer, each of the two buffers that [main] hands to [printf] as a string is
    32 bytes long and zero from index 18 (RTC RAM) or 17 (EEPROM) on: the
    string ends inside the array. *)
Theorem main_setup_strings_terminated (st : bus) :
  (length (main_setup rtc_reg0 i2c_buf0 st).1.1 = 32%nat /\
   drop 18 (main_setup rtc_reg0 i2c_buf0 st).1.1 = replicate 14 0) /\
  (length (main_setup rtc_reg0 i2c_buf0 st).1.2 = 32%nat /\
   drop 17 (main_setup rtc_reg0 i2c_buf0 st).1.2 = replicate 15 0).
Proof.
  rewrite main_setup_eq. cbn [fst snd]. split; split.
  - by rewrite rtc_get_ram_buf_length by (vm_compute; lia).
  - by rewrite (rtc_get_ram_buf_tail _ 18) by (vm_compute; lia).
  - by rewrite eeprom_get_data_length by (vm_compute; lia).
  - by rewrite (eeprom_get_data_tail _ _ 17) by (vm_compute; lia).
Qed.

Lemma main_loop_cons rtc_dat rest st :
  main_loop (rtc_dat :: rest) st
  = ((rtc_get_time_var rtc_dat st).1
       :: (main_loop rest (rtc_get_time_var rtc_dat st).2).1,
     (main_loop rest (rtc_get_time_var rtc_dat st).2).2).
Proof.
  simpl. io_unfold. destruct (rtc_get_time_var rtc_dat st) as [v st1].
  simpl. by destruct (main_loop rest st1).
Qed.

Lemma main_loop_log rtc_dats : forall st,
  log (main_loop rtc_dats st).2
  = log st ++ concat (map (fun _ => [TxWrite DS1307 [RTC_REG_START_TIME];
                                     TxRead DS1307 2]) rtc_dats).
Proof.
  induction rtc_dats as [|dat rest IH]; intros st.
  - simpl. by rewrite app_nil_r.
  - rewrite main_loop_cons. cbn [snd]. rewrite IH, rtc_get_time_var_eq.
    cbn [snd]. unfold i2c_rd_addr_blk. rewrite rd_blk_log.
    simpl. by rewrite <- app_assoc.
Qed.

(** X13: the main loop only reads.  On a DS1307 that answers, any number
    of turns issues per turn the pointer write to register 0 and one read
    of two bytes, writes to no register of the clock, and hands to
    [printf] on every turn the decode of registers 0 and 1 as the device
    holds them, never the indeterminate contents of the local array. *)
Theorem main_loop_only_reads (rtc_dats : list buffer) (st : bus) (d : device) :
  devices st !! DS1307 = Some d -> is_ds1307 d ->
  issued st (main_loop rtc_dats st).2
  = concat (map (fun _ => [TxWrite DS1307 [RTC_REG_START_TIME];
                           TxRead DS1307 2]) rtc_dats) /\
  (main_loop rtc_dats st).1
  = map (fun _ => decode_time (dev_peek d 0) (dev_peek d 1)) rtc_dats /\
  exists d',
    devices (main_loop rtc_dats st).2 !! DS1307 = Some d' /\
    is_ds1307 d' /\ dev_mem d' = dev_mem d.
Proof.
  intros Hd Hsh. split; [apply issued_app, main_loop_log|].
  revert st d Hd Hsh.
  induction rtc_dats as [|dat rest IH]; intros st d Hd Hsh.
  - simpl. split; [done|]. by exists d.
  - rewrite main_loop_cons. cbn [fst snd].
    pose proof (rtc_get_time_var_result st d dat Hd Hsh) as Hv.
    assert (Hex : exists d1,
      devices (rtc_get_time_var dat st).2 !! DS1307 = Some d1 /\
      is_ds1307 d1 /\ dev_mem d1 = dev_mem d).
    { rewrite rtc_get_time_var_eq. cbn [snd]. unfold i2c_rd_addr_blk.
      pose proof Hsh as Hsh'. unfold is_ds1307, dev_shape in Hsh'.
      injection Hsh' as Hw Hs Hpg.
      destruct (rd_blk_keeps_mem enc8 DS1307 RTC_REG_START_TIME dat 2 st d)
        as (d1 & Hd1 & Hsh1 & Hm); try done.
      exists d1. unfold is_ds1307. by rewrite Hsh1. }
    destruct Hex as (d1 & Hd1 & Hsh1 & Hm1).
    destruct (IH _ d1 Hd1 Hsh1) as (Hvs & d' & Hd' & Hsh' & Hm').
    split.
    + rewrite Hv, Hvs. unfold dev_peek. by rewrite Hm1.
    + exists d'. by rewrite Hm', Hm1.
Qed.

End MoreMain.

Lemma main_loop_only_reads_witness :
  (@main_loop tiny_rtc [[0xAA; 0xBB]; [0xCC; 0xDD]; [0; 0]] board0).1
  = [decode_time 1 1; decode_time 1 1; decode_time 1 1].
Proof.
  refine (proj1 (proj2 (@main_loop_only_reads tiny_rtc
                          [[0xAA; 0xBB]; [0xCC; 0xDD]; [0; 0]]
                          board0 ds1307 _ _)));
    vm_compute; reflexivity.
Defined.
